(** * Gateway-header authentication layer of the GitHub MCP SSE server

    A shallow embedding of [internal/ghmcp/auth.go] (identity extraction,
    context attachment, strict and optional authentication middleware) and
    of [internal/ghmcp/sse_auth_wrapper.go] (health and status endpoints,
    routing, CORS envelope, shutdown logic), with the properties of the
    design document proved or refuted against it.

    Go values are modelled as follows: [string] is Rocq's [string] (a
    sequence of bytes); [http.Header] is a finite map from canonical keys
    to value lists; [context.Context] is the chain of [WithValue] frames;
    an [http.Handler] is a function from the request and the observable
    world (response writer, log, clock) to the new world. *)

From Stdlib Require Import String Ascii ZArith List Bool.
From stdpp Require Import gmap strings list fin_maps.

Local Open Scope string_scope.

(** ** Strings *)

Module strings.

(** [strings.HasPrefix(s, prefix)]: a byte-wise comparison. *)
Fixpoint HasPrefix (s prefix : string) {struct prefix} : bool :=
  match prefix with
  | EmptyString => true
  | String c prefix' =>
      match s with
      | EmptyString => false
      | String d s' => if Ascii.eqb d c then HasPrefix s' prefix' else false
      end
  end.

(** [s[n:]] *)
Fixpoint slice_from (n : nat) (s : string) : string :=
  match n with
  | O => s
  | S n' => match s with
            | EmptyString => EmptyString
            | String _ s' => slice_from n' s'
            end
  end.

(** [strings.TrimPrefix(s, prefix)] *)
Definition TrimPrefix (s prefix : string) : string :=
  if HasPrefix s prefix then slice_from (String.length prefix) s else s.

End strings.

(** The double-quote byte, and a string in double quotes. *)
Definition dq : string := String (ascii_of_nat 34) EmptyString.
Definition quoted (s : string) : string := dq +:+ s +:+ dq.

(** Line feed and horizontal tab, as they occur in raw string literals. *)
Definition lf : string := String (ascii_of_nat 10) EmptyString.
Definition tab : string := String (ascii_of_nat 9) EmptyString.

(** ** Errors *)

(** Go [error] values as this package meets them: the sentinel
    [http.ErrServerClosed] (compared by identity), an error made by
    [fmt.Errorf] from a constant message, and one made by [fmt.Errorf]
    with a [%w] verb around another error. *)
Inductive error : Type :=
| ErrServerClosed
| Errorf (msg : string)
| ErrorfW (msg : string) (wrapped : error).

Fixpoint Error (e : error) : string :=
  match e with
  | ErrServerClosed => "http: Server closed"
  | Errorf msg => msg
  | ErrorfW msg wrapped => msg +:+ Error wrapped
  end.

#[global] Instance error_eq_dec : EqDecision error.
Proof. solve_decision. Defined.

(** ** net/textproto and net/http headers *)

Module textproto.

Definition is_lower (c : ascii) : bool :=
  (97 <=? nat_of_ascii c)%nat && (nat_of_ascii c <=? 122)%nat.
Definition is_upper (c : ascii) : bool :=
  (65 <=? nat_of_ascii c)%nat && (nat_of_ascii c <=? 90)%nat.
Definition is_digit (c : ascii) : bool :=
  (48 <=? nat_of_ascii c)%nat && (nat_of_ascii c <=? 57)%nat.

(** [validHeaderFieldByte]: the token characters of RFC 7230. *)
Definition validHeaderFieldByte (c : ascii) : bool :=
  is_lower c || is_upper c || is_digit c ||
  existsb (Nat.eqb (nat_of_ascii c))
    (33 :: 35 :: 36 :: 37 :: 38 :: 39 :: 42 :: 43 :: 45 :: 46 :: 94 :: 95
        :: 96 :: 124 :: 126 :: nil)%nat.

Fixpoint all_valid (s : string) : bool :=
  match s with
  | EmptyString => true
  | String c s' => validHeaderFieldByte c && all_valid s'
  end.

(** The canonicalising pass: upper case at the start and after each dash,
    lower case elsewhere. *)
Fixpoint canon (upper : bool) (s : string) : string :=
  match s with
  | EmptyString => EmptyString
  | String c s' =>
      let c' :=
        if upper && is_lower c then ascii_of_nat (nat_of_ascii c - 32)
        else if negb upper && is_upper c then ascii_of_nat (nat_of_ascii c + 32)
        else c in
      String c' (canon (Ascii.eqb c' "-"%char) s')
  end.

(** [textproto.CanonicalMIMEHeaderKey]: a key holding a byte that is not a
    token character (a space included) is returned unchanged. *)
Definition CanonicalMIMEHeaderKey (s : string) : string :=
  if all_valid s then canon true s else s.

End textproto.

(** [http.Header] is [map[string][]string]. *)
Abbreviation Header := (gmap string (list string)).

Module http_Header.

(** [h.Get(key)]: the first value stored under the canonical form of
    [key], and the empty string when there is none. *)
Definition Get (h : Header) (key : string) : string :=
  match h !! textproto.CanonicalMIMEHeaderKey key with
  | Some (v :: _) => v
  | _ => ""
  end.

(** [h.Set(key, value)] replaces whatever is stored under the key. *)
Definition Set_ (h : Header) (key value : string) : Header :=
  <[textproto.CanonicalMIMEHeaderKey key := [value]]> h.

(** [h.Add(key, value)] appends to the values of the key. *)
Definition Add (h : Header) (key value : string) : Header :=
  <[textproto.CanonicalMIMEHeaderKey key :=
      (default [] (h !! textproto.CanonicalMIMEHeaderKey key) ++ [value])%list]> h.

(** [h.Del(key)] *)
Definition Del (h : Header) (key : string) : Header :=
  delete (textproto.CanonicalMIMEHeaderKey key) h.

End http_Header.

(** ** auth.go: the identity record and the request context *)

(** [UserContext] holds user information extracted from gateway headers. *)
Record UserContext : Type := mkUserContext {
  UserID : string;
  Email : string;
  Name : string;
  SessionID : string;
  Token : string;
  RequestID : string
}.

#[global] Instance UserContext_eq_dec : EqDecision UserContext.
Proof. solve_decision. Defined.

(** A context key is an interface value: its dynamic type together with
    its value. [contextKey] is the package's own string type; a key of any
    other type never equals a [contextKey]. *)
Inductive Key : Type :=
| contextKey (s : string)
| foreignKey (type_name value : string).

#[global] Instance Key_eq_dec : EqDecision Key.
Proof. solve_decision. Defined.

Definition userContextKey : Key := contextKey "user_context".

(** A value of type [any] held by a context: the nil interface, a
    [*UserContext] (itself nil or pointing to a record), or a value of
    some other dynamic type. *)
Inductive Any : Type :=
| nilAny
| ptrUserContext (p : option UserContext)
| foreignAny (type_name value : string).

(** [context.Context]: the background context and [WithValue] frames. *)
Inductive Context : Type :=
| Background
| WithValue (parent : Context) (key : Key) (val : Any).

(** [ctx.Value(key)]: the innermost frame with an equal key wins. *)
Fixpoint Value (ctx : Context) (key : Key) : Any :=
  match ctx with
  | Background => nilAny
  | WithValue parent k v => if decide (k = key) then v else Value parent key
  end.

(** [*http.Request], as far as this package reads it. *)
Record Request : Type := mkRequest {
  Method : string;
  URL_Path : string;
  RemoteAddr : string;
  Header_ : Header;
  Context_ : Context
}.

(** [r.WithContext(ctx)] *)
Definition WithContext (r : Request) (ctx : Context) : Request :=
  {| Method := Method r; URL_Path := URL_Path r; RemoteAddr := RemoteAddr r;
     Header_ := Header_ r; Context_ := ctx |}.

(** [extractUserContext] extracts user information from HTTP headers. The
    result is the record, or the error in its place. *)
Definition extractUserContext (r : Request) : UserContext + error :=
  let authHeader := http_Header.Get (Header_ r) "Authorization" in
  if String.eqb authHeader "" then
    inr (Errorf "missing Authorization header")
  else if negb (strings.HasPrefix authHeader "Bearer ") then
    inr (Errorf "invalid Authorization header format")
  else
    let token := strings.TrimPrefix authHeader "Bearer " in
    let userID := http_Header.Get (Header_ r) "X-User-ID" in
    let email := http_Header.Get (Header_ r) "X-User-Email" in
    let name := http_Header.Get (Header_ r) "X-User-Name" in
    let sessionID := http_Header.Get (Header_ r) "X-Session-ID" in
    let requestID := http_Header.Get (Header_ r) "X-Gateway-Request-ID" in
    if String.eqb userID "" || String.eqb email "" then
      inr (Errorf
             "missing required user context headers (X-User-ID or X-User-Email)")
    else
      inl {| UserID := userID; Email := email; Name := name;
             SessionID := sessionID; Token := token;
             RequestID := requestID |}.

(** [GetUserContext] retrieves user context from the request context: the
    type assertion yields the pointer and [true] exactly when the stored
    value has dynamic type [*UserContext]. *)
Definition GetUserContext (ctx : Context) : option UserContext * bool :=
  match Value ctx userContextKey with
  | ptrUserContext p => (p, true)
  | _ => (None, false)
  end.

(** [WithUserContext] adds user context to the request context. *)
Definition WithUserContext (ctx : Context) (userCtx : option UserContext)
  : Context :=
  WithValue ctx userContextKey (ptrUserContext userCtx).

(** ** The observable world of a handler *)

(** [http.ResponseWriter]: the header map the handler edits, whether the
    status line went out, the status code, the headers as they were when
    it went out, and the body bytes written so far. *)
Record ResponseWriter : Type := mkResponseWriter {
  rw_header : Header;
  wroteHeader : bool;
  status : Z;
  sentHeader : Header;
  body : string
}.

Definition StatusOK : Z := 200.
Definition StatusUnauthorized : Z := 401.
Definition StatusNotFound : Z := 404.

(** The response writer the server hands to the outermost handler. *)
Definition newResponseWriter : ResponseWriter :=
  {| rw_header := ∅; wroteHeader := false; status := 0; sentHeader := ∅;
     body := "" |}.

Module ResponseWriter_.

(** [w.Header().Set(key, value)] *)
Definition Header_Set (key value : string) (w : ResponseWriter)
  : ResponseWriter :=
  {| rw_header := http_Header.Set_ (rw_header w) key value;
     wroteHeader := wroteHeader w; status := status w;
     sentHeader := sentHeader w; body := body w |}.

(** [w.Header().Del(key)] *)
Definition Header_Del (key : string) (w : ResponseWriter) : ResponseWriter :=
  {| rw_header := http_Header.Del (rw_header w) key;
     wroteHeader := wroteHeader w; status := status w;
     sentHeader := sentHeader w; body := body w |}.

(** [w.WriteHeader(code)]: only the first call takes effect. *)
Definition WriteHeader (code : Z) (w : ResponseWriter) : ResponseWriter :=
  if wroteHeader w then w
  else {| rw_header := rw_header w; wroteHeader := true; status := code;
          sentHeader := rw_header w; body := body w |}.

(** [w.Write(data)]: sends status 200 first when no status went out. *)
Definition Write (data : string) (w : ResponseWriter) : ResponseWriter :=
  let w1 := WriteHeader StatusOK w in
  {| rw_header := rw_header w1; wroteHeader := wroteHeader w1;
     status := status w1; sentHeader := sentHeader w1;
     body := body w1 +:+ data |}.

End ResponseWriter_.

(** A logrus entry: level, fields (in source order) and message. *)
Inductive Level : Type := DebugLevel | InfoLevel | WarnLevel.

Record Entry : Type := mkEntry {
  entry_level : Level;
  entry_fields : list (string * string);
  entry_message : string
}.

(** What a handler can change or read besides its request: the response
    writer, the log calls made so far (oldest first), and the reading
    [time.Now().Format(time.RFC3339)] gives. *)
Record World : Type := mkWorld {
  resp : ResponseWriter;
  logged : list Entry;
  now_RFC3339 : string
}.

Definition on_resp (f : ResponseWriter -> ResponseWriter) (w : World) : World :=
  {| resp := f (resp w); logged := logged w; now_RFC3339 := now_RFC3339 w |}.

(** [logrus.WithFields(fields).<Level>(message)] *)
Definition logrus_log (lvl : Level) (fields : list (string * string))
    (message : string) (w : World) : World :=
  {| resp := resp w;
     logged := (logged w ++ [mkEntry lvl fields message])%list;
     now_RFC3339 := now_RFC3339 w |}.

(** [http.Handler]: [ServeHTTP(w, r)] as a function of the request and the
    world before the call. *)
Definition Handler : Type := Request -> World -> World.

(** ** auth.go: the two middlewares *)

(** The body the strict middleware writes for the error message [msg]. *)
Definition unauthorized_body (msg : string) : string :=
  "{" +:+ quoted "error" +:+ ":" +:+ quoted "authentication required" +:+ ","
      +:+ quoted "message" +:+ ":" +:+ dq +:+ msg +:+ dq +:+ "}".

(** [AuthenticationMiddleware] extracts user context from headers and adds
    it to the request context. *)
Definition AuthenticationMiddleware (next : Handler) : Handler :=
  fun r w =>
    let w := logrus_log DebugLevel
               [("method", Method r); ("path", URL_Path r);
                ("remote", RemoteAddr r)]
               "Incoming request" w in
    match extractUserContext r with
    | inr err =>
        let w := logrus_log WarnLevel
                   [("error", Error err); ("path", URL_Path r);
                    ("user_agent", http_Header.Get (Header_ r) "User-Agent")]
                   "Authentication extraction failed" w in
        let w := on_resp (ResponseWriter_.Header_Set
                            "Content-Type" "application/json") w in
        let w := on_resp (ResponseWriter_.WriteHeader StatusUnauthorized) w in
        let w := on_resp (ResponseWriter_.Write
                            (unauthorized_body (Error err))) w in
        w
    | inl userCtx =>
        let w := logrus_log InfoLevel
                   [("user_id", UserID userCtx); ("user_email", Email userCtx);
                    ("session_id", SessionID userCtx);
                    ("request_id", RequestID userCtx)]
                   "Authenticated request" w in
        let ctx := WithUserContext (Context_ r) (Some userCtx) in
        let r := WithContext r ctx in
        next r w
    end.

(** [OptionalAuthenticationMiddleware] extracts user context but allows
    unauthenticated requests. *)
Definition OptionalAuthenticationMiddleware (next : Handler) : Handler :=
  fun r w =>
    match extractUserContext r with
    | inr err =>
        let w := logrus_log DebugLevel
                   [("error", Error err); ("path", URL_Path r)]
                   "No authentication context, continuing without user context"
                   w in
        next r w
    | inl userCtx =>
        let w := logrus_log DebugLevel
                   [("user_id", UserID userCtx); ("user_email", Email userCtx)]
                   "Authenticated request" w in
        let ctx := WithUserContext (Context_ r) (Some userCtx) in
        let r := WithContext r ctx in
        next r w
    end.

(** ** sse_auth_wrapper.go *)

Module Config.

(** [SSEServerConfig], with the fields [RunSSEServerWithSimpleAuth] reads.
    Durations are in nanoseconds. *)
Record SSEServerConfig : Type := mkSSEServerConfig {
  Version : string;
  Host : string;
  Token : string;
  EnabledToolsets : list string;
  DynamicToolsets : bool;
  ReadOnly : bool;
  ExportTranslations : bool;
  LogFilePath : string;
  ListenAddr : string;
  BaseURL : string;
  BasePath : string;
  KeepAlive : bool;
  KeepAliveInterval : Z
}.

End Config.

(** [addSimpleCORS] adds basic CORS support. *)
Definition addSimpleCORS (next : Handler) : Handler :=
  fun r w =>
    let w := on_resp (ResponseWriter_.Header_Set
                        "Access-Control-Allow-Origin" "*") w in
    let w := on_resp (ResponseWriter_.Header_Set
                        "Access-Control-Allow-Methods"
                        "GET, POST, PUT, DELETE, OPTIONS") w in
    let w := on_resp (ResponseWriter_.Header_Set
                        "Access-Control-Allow-Headers"
                        "Authorization, Content-Type, X-User-ID, X-User-Email, X-User-Name, X-Session-ID, X-Gateway-Request-ID")
                     w in
    if String.eqb (Method r) "OPTIONS" then
      on_resp (ResponseWriter_.WriteHeader StatusOK) w
    else
      next r w.

(** [fmt.Sprintf("%t", b)] *)
Definition fmt_t (b : bool) : string := if b then "true" else "false".

(** The body of the health check. *)
Definition health_body (timestamp : string) : string :=
  "{" +:+ quoted "status" +:+ ":" +:+ quoted "healthy" +:+ ","
      +:+ quoted "timestamp" +:+ ":" +:+ dq +:+ timestamp +:+ dq +:+ "}".

(** The health check handler (no auth required). *)
Definition healthHandler : Handler :=
  fun r w =>
    let w := on_resp (ResponseWriter_.Header_Set
                        "Content-Type" "application/json") w in
    let w := on_resp (ResponseWriter_.WriteHeader StatusOK) w in
    on_resp (ResponseWriter_.Write (health_body (now_RFC3339 w))) w.

(** The format of the status endpoint with its verbs filled in; the raw
    string literal keeps the line feeds and tabs of the source. *)
Definition status_body (version host : string)
    (authentication_required read_only : bool) (timestamp : string) : string :=
  let nl3 := lf +:+ tab +:+ tab +:+ tab in
  "{" +:+ nl3 +:+ quoted "status" +:+ ": " +:+ quoted "running" +:+ ","
      +:+ nl3 +:+ quoted "version" +:+ ": " +:+ dq +:+ version +:+ dq +:+ ","
      +:+ nl3 +:+ quoted "host" +:+ ": " +:+ dq +:+ host +:+ dq +:+ ","
      +:+ nl3 +:+ quoted "authentication_required" +:+ ": "
              +:+ fmt_t authentication_required +:+ ","
      +:+ nl3 +:+ quoted "read_only" +:+ ": " +:+ fmt_t read_only +:+ ","
      +:+ nl3 +:+ quoted "timestamp" +:+ ": " +:+ dq +:+ timestamp +:+ dq
      +:+ lf +:+ tab +:+ tab +:+ "}".

(** The status endpoint handler (no auth required). *)
Definition statusHandler (cfg : Config.SSEServerConfig)
    (allowUnauthenticated : bool) : Handler :=
  fun r w =>
    let w := on_resp (ResponseWriter_.Header_Set
                        "Content-Type" "application/json") w in
    let w := on_resp (ResponseWriter_.WriteHeader StatusOK) w in
    let status := status_body (Config.Version cfg) (Config.Host cfg)
                    (negb allowUnauthenticated) (Config.ReadOnly cfg)
                    (now_RFC3339 w) in
    on_resp (ResponseWriter_.Write status) w.

(** [http.NotFound]: the reply of the mux to a path nothing is registered
    for. *)
Definition NotFound : Handler :=
  fun r w =>
    let w := on_resp (ResponseWriter_.Header_Del "Content-Length") w in
    let w := on_resp (ResponseWriter_.Header_Set
                        "Content-Type" "text/plain; charset=utf-8") w in
    let w := on_resp (ResponseWriter_.Header_Set
                        "X-Content-Type-Options" "nosniff") w in
    let w := on_resp (ResponseWriter_.WriteHeader StatusNotFound) w in
    on_resp (ResponseWriter_.Write ("404 page not found" +:+ lf)) w.

(** [http.ServeMux] holding literal path patterns: a request is served by
    the handler registered for exactly its path. *)
Definition ServeMux : Type := list (string * Handler).

Definition Handle (mux : ServeMux) (pattern : string) (h : Handler)
  : ServeMux :=
  (mux ++ [(pattern, h)])%list.

Fixpoint mux_find (mux : ServeMux) (path : string) : option Handler :=
  match mux with
  | [] => None
  | (pattern, h) :: mux' =>
      if String.eqb pattern path then Some h else mux_find mux' path
  end.

Definition ServeMux_ServeHTTP (mux : ServeMux) : Handler :=
  fun r w =>
    match mux_find mux (URL_Path r) with
    | Some h => h r w
    | None => NotFound r w
    end.

(** The routing surface [RunSSEServerWithSimpleAuth] builds, given the two
    handlers of the SSE server ([sseServer.SSEHandler()] and
    [sseServer.MessageHandler()]). *)
Definition buildMux (cfg : Config.SSEServerConfig)
    (allowUnauthenticated : bool) (SSEHandler MessageHandler : Handler)
  : ServeMux :=
  let mux : ServeMux := [] in
  let authMiddleware :=
    if allowUnauthenticated then OptionalAuthenticationMiddleware
    else AuthenticationMiddleware in
  let mux := Handle mux "/health" healthHandler in
  let mux := Handle mux "/status" (statusHandler cfg allowUnauthenticated) in
  let mux := Handle mux (Config.BasePath cfg +:+ "/sse")
               (authMiddleware SSEHandler) in
  let mux := Handle mux (Config.BasePath cfg +:+ "/message")
               (authMiddleware MessageHandler) in
  mux.

(** [corsHandler], the handler given to the HTTP server. *)
Definition corsHandler (cfg : Config.SSEServerConfig)
    (allowUnauthenticated : bool) (SSEHandler MessageHandler : Handler)
  : Handler :=
  addSimpleCORS
    (ServeMux_ServeHTTP
       (buildMux cfg allowUnauthenticated SSEHandler MessageHandler)).

(** *** Start, wait and shutdown *)

Definition Second : Z := 1000000000.

(** Which case of the [select] ran: the signal context was done, or the
    goroutine running [ListenAndServe] sent its result on [errC]. *)
Inductive SelectCase : Type :=
| ctx_Done
| errC_recv (err : option error).

(** What the surroundings answer to one run of the server. *)
Record Environment : Type := mkEnvironment {
  NewMCPServer_err : option error;
  OpenFile_err : option error;
  select_case : SelectCase;
  Shutdown_err : option error
}.

(** The calls the run makes to the HTTP server, in order. Log and standard
    error output are left out. *)
Inductive Call : Type :=
| ListenAndServe (addr : string)
| Shutdown (timeout : Z).

#[global] Instance Call_eq_dec : EqDecision Call.
Proof. solve_decision. Defined.

(** [RunSSEServerWithSimpleAuth]: the calls made and the error returned
    ([None] is [nil]). *)
Definition RunSSEServerWithSimpleAuth (cfg : Config.SSEServerConfig)
    (allowUnauthenticated : bool) (env : Environment)
  : list Call * option error :=
  match NewMCPServer_err env with
  | Some err => ([], Some (ErrorfW "failed to create MCP server: " err))
  | None =>
      match (if negb (String.eqb (Config.LogFilePath cfg) "")
             then OpenFile_err env else None) with
      | Some err => ([], Some (ErrorfW "failed to open log file: " err))
      | None =>
          let started := [ListenAndServe (Config.ListenAddr cfg)] in
          let graceful :=
            ((started ++ [Shutdown (30 * Second)])%list, Shutdown_err env) in
          match select_case env with
          | ctx_Done => graceful
          | errC_recv None => graceful
          | errC_recv (Some err) =>
              if negb (bool_decide (err = ErrServerClosed)) then
                (started, Some (ErrorfW "error running server: " err))
              else graceful
          end
      end
  end.

(** ** Vocabulary of the properties *)

(** The three failures of extraction, under the names of the design
    document. *)
Definition MissingCredential : error := Errorf "missing Authorization header".
Definition MalformedCredential : error :=
  Errorf "invalid Authorization header format".
Definition MissingIdentityClaims : error :=
  Errorf "missing required user context headers (X-User-ID or X-User-Email)".

(** The record extraction builds from the headers [h] and the token. *)
Definition record_of (h : Header) (token : string) : UserContext :=
  {| UserID := http_Header.Get h "X-User-ID";
     Email := http_Header.Get h "X-User-Email";
     Name := http_Header.Get h "X-User-Name";
     SessionID := http_Header.Get h "X-Session-ID";
     Token := token;
     RequestID := http_Header.Get h "X-Gateway-Request-ID" |}.

(** The handler wrapper [M], run on [r] in world [w], hands the request
    [r'] and the world [w'] to the wrapped handler, whose result is the
    result of the run: this holds for whatever handler is wrapped. *)
Definition forwards (M : Handler -> Handler) (r : Request) (w : World)
    (r' : Request) (w' : World) : Prop :=
  forall next : Handler, M next r w = next r' w'.

(** The handler wrapper [M], run on [r] in world [w], ends in [w'] without
    running the wrapped handler: the result is the same for whatever
    handler is wrapped. *)
Definition answers (M : Handler -> Handler) (r : Request) (w : World)
    (w' : World) : Prop :=
  forall next : Handler, M next r w = w'.

(** No identity is attached to the context. *)
Definition unattached (ctx : Context) : Prop :=
  GetUserContext ctx = (None, false).

(** The invariant of an identity record [u] built for the request [r]:
    subject identifier and email are non-empty, and the credential header
    of the request is present with the bearer prefix, the token being what
    follows it. *)
Definition well_formed_for (r : Request) (u : UserContext) : Prop :=
  UserID u <> "" /\ Email u <> ""
  /\ http_Header.Get (Header_ r) "Authorization" <> ""
  /\ http_Header.Get (Header_ r) "Authorization" = "Bearer " +:+ Token u.

(** The world the server starts a handler in: nothing written, nothing
    logged, the clock reading [t]. *)
Definition fresh_world (t : string) : World :=
  {| resp := newResponseWriter; logged := []; now_RFC3339 := t |}.

(** Decidable equality of requests and worlds, to tell apart what a
    wrapped handler is run on. *)
#[local] Instance ResponseWriter_eq_dec : EqDecision ResponseWriter.
Proof. solve_decision. Defined.
#[local] Instance Level_eq_dec : EqDecision Level.
Proof. solve_decision. Defined.
#[local] Instance Entry_eq_dec : EqDecision Entry.
Proof. solve_decision. Defined.
#[local] Instance World_eq_dec : EqDecision World.
Proof. solve_decision. Defined.
#[local] Instance Any_eq_dec : EqDecision Any.
Proof. solve_decision. Defined.
#[local] Instance Context_eq_dec : EqDecision Context.
Proof. solve_decision. Defined.
#[local] Instance Request_eq_dec : EqDecision Request.
Proof. solve_decision. Defined.

(** *** Sample requests *)

Definition headers_of (l : list (string * string)) : Header :=
  fold_left (fun h kv => http_Header.Add h (fst kv) (snd kv)) l ∅.

(** A request as the gateway sends it. *)
Definition gateway_request : Request :=
  {| Method := "GET"; URL_Path := "/sse"; RemoteAddr := "10.0.0.7:51234";
     Header_ := headers_of [("Authorization", "Bearer ghp_abc");
                            ("X-User-ID", "u-42");
                            ("X-User-Email", "ada@example.com");
                            ("X-User-Name", "Ada");
                            ("X-Session-ID", "s-1");
                            ("X-Gateway-Request-ID", "req-9")];
     Context_ := Background |}.

(** The same gateway headers on another method, path, peer and context,
    with one more header. *)
Definition gateway_request' : Request :=
  {| Method := "POST"; URL_Path := "/message"; RemoteAddr := "10.0.0.8:40000";
     Header_ := headers_of [("User-Agent", "curl/8.0");
                            ("x-gateway-request-id", "req-9");
                            ("x-session-id", "s-1");
                            ("x-user-name", "Ada");
                            ("x-user-email", "ada@example.com");
                            ("x-user-id", "u-42");
                            ("authorization", "Bearer ghp_abc")];
     Context_ := WithValue Background (foreignKey "string" "user_context")
                   (foreignAny "string" "x") |}.

(** A request whose [Authorization] header is there with an empty value. *)
Definition empty_authorization_request : Request :=
  {| Method := "GET"; URL_Path := "/sse"; RemoteAddr := "10.0.0.7:51234";
     Header_ := headers_of [("Authorization", "");
                            ("X-User-ID", "u-42");
                            ("X-User-Email", "ada@example.com")];
     Context_ := Background |}.

(** A request with no header at all. *)
Definition bare_request (method path : string) : Request :=
  {| Method := method; URL_Path := path; RemoteAddr := "10.0.0.7:51234";
     Header_ := ∅; Context_ := Background |}.

(** A request with the given [Authorization] value and both required
    claims. *)
Definition request_with_authorization (auth : string) : Request :=
  {| Method := "GET"; URL_Path := "/sse"; RemoteAddr := "10.0.0.7:51234";
     Header_ := headers_of [("Authorization", auth);
                            ("X-User-ID", "u-42");
                            ("X-User-Email", "ada@example.com")];
     Context_ := Background |}.

(** A bearer credential with the email claim left out. *)
Definition no_email_request : Request :=
  {| Method := "GET"; URL_Path := "/sse"; RemoteAddr := "10.0.0.7:51234";
     Header_ := headers_of [("Authorization", "Bearer ghp_abc");
                            ("X-User-ID", "u-42")];
     Context_ := Background |}.

(** A downstream handler that writes what it finds in the context. *)
Definition whoami : Handler :=
  fun r w =>
    match GetUserContext (Context_ r) with
    | (Some u, true) => on_resp (ResponseWriter_.Write (UserID u)) w
    | _ => on_resp (ResponseWriter_.Write "anonymous") w
    end.

Definition sample_config : Config.SSEServerConfig :=
  {| Config.Version := "1.2.3"; Config.Host := "https://github.example.com";
     Config.Token := ""; Config.EnabledToolsets := ["all"];
     Config.DynamicToolsets := false; Config.ReadOnly := true;
     Config.ExportTranslations := false; Config.LogFilePath := "";
     Config.ListenAddr := ":8080"; Config.BaseURL := "";
     Config.BasePath := ""; Config.KeepAlive := true;
     Config.KeepAliveInterval := 30 * Second |}.

(** The listener fails while running. *)
Definition accept_failure : error :=
  Errorf "accept tcp [::]:8080: accept4: too many open files".

Definition listener_failure_env : Environment :=
  {| NewMCPServer_err := None; OpenFile_err := None;
     select_case := errC_recv (Some accept_failure);
     Shutdown_err := None |}.

Definition signal_env : Environment :=
  {| NewMCPServer_err := None; OpenFile_err := None;
     select_case := ctx_Done;
     Shutdown_err := None |}.

(** ** cmd/github-mcp-server/main.go: the two commands *)

Module Main.

(** The configuration store the commands read ([viper]): strings and
    booleans by key, and the outcome of [UnmarshalKey] for a string
    slice. *)
Record Viper : Type := mkViper {
  GetString : string -> string;
  GetBool : string -> bool;
  UnmarshalKey : string -> list string + error
}.

(** What the process is started with: the configuration store, the
    environment variables ([os.Getenv]) and the [version] variable the
    build sets. *)
Record Process : Type := mkProcess {
  viper : Viper;
  Getenv : string -> string;
  version : string
}.

(** [ghmcp.StdioServerConfig], as the stdio command fills it. *)
Record StdioServerConfig : Type := mkStdioServerConfig {
  Version : string;
  Host : string;
  Token : string;
  EnabledToolsets : list string;
  DynamicToolsets : bool;
  ReadOnly : bool;
  ExportTranslations : bool;
  EnableCommandLogging : bool;
  LogFilePath : string
}.

(** The [RunE] function of [stdioCmd]. [RunStdioServer] is the server
    entry point of the [ghmcp] package. *)
Definition stdioCmd_RunE (p : Process)
    (RunStdioServer : StdioServerConfig -> option error) : option error :=
  let token := GetString (viper p) "personal_access_token" in
  if String.eqb token "" then
    Some (Errorf "GITHUB_PERSONAL_ACCESS_TOKEN not set")
  else
    match UnmarshalKey (viper p) "toolsets" with
    | inr err => Some (ErrorfW "failed to unmarshal toolsets: " err)
    | inl enabledToolsets =>
        let stdioServerConfig :=
          {| Version := version p;
             Host := GetString (viper p) "host";
             Token := token;
             EnabledToolsets := enabledToolsets;
             DynamicToolsets := GetBool (viper p) "dynamic_toolsets";
             ReadOnly := GetBool (viper p) "read-only";
             ExportTranslations := GetBool (viper p) "export-translations";
             EnableCommandLogging :=
               GetBool (viper p) "enable-command-logging";
             LogFilePath := GetString (viper p) "log-file" |} in
        RunStdioServer stdioServerConfig
    end.

(** The warning the sse command prints about a missing token. *)
Definition no_token_warning : string :=
  "Warning: No GITHUB_PERSONAL_ACCESS_TOKEN set and authentication required. Server will rely on gateway headers."
  +:+ lf.

(** The [SSEServerConfig] literal of [sseCmd], without its
    [EnableCommandLogging] field, which [RunSSEServerWithSimpleAuth] does
    not read. *)
Definition sseServerConfig (p : Process) (enabledToolsets : list string)
  : Config.SSEServerConfig :=
  let token := GetString (viper p) "personal_access_token" in
  let port := Getenv p "PORT" in
  let port := if String.eqb port "" then "8080" else port in
  {| Config.Version := version p;
     Config.Host := GetString (viper p) "host";
     Config.Token := token;
     Config.EnabledToolsets := enabledToolsets;
     Config.DynamicToolsets := GetBool (viper p) "dynamic_toolsets";
     Config.ReadOnly := GetBool (viper p) "read-only";
     Config.ExportTranslations := GetBool (viper p) "export-translations";
     Config.LogFilePath := GetString (viper p) "log-file";
     Config.ListenAddr := ":" +:+ port;
     Config.BaseURL := GetString (viper p) "base-url";
     Config.BasePath := "";
     Config.KeepAlive := true;
     Config.KeepAliveInterval := 30 * Second |}.

(** The [RunE] function of [sseCmd]: what the command itself prints on
    standard error, then the calls made to the HTTP server, and the error
    returned. *)
Definition sseCmd_RunE (p : Process) (env : Environment)
  : list string * (list Call * option error) :=
  let token := GetString (viper p) "personal_access_token" in
  let stderr :=
    if String.eqb token "" then
      let allowUnauthenticated := GetBool (viper p) "allow_unauthenticated" in
      if negb allowUnauthenticated then [no_token_warning] else []
    else [] in
  match UnmarshalKey (viper p) "toolsets" with
  | inr err =>
      (stderr, ([], Some (ErrorfW "failed to unmarshal toolsets: " err)))
  | inl enabledToolsets =>
      let allowUnauthenticated := GetBool (viper p) "allow_unauthenticated" in
      (stderr,
       RunSSEServerWithSimpleAuth (sseServerConfig p enabledToolsets)
         allowUnauthenticated env)
  end.

End Main.

(** *** Sample processes *)

(** A configuration store holding the given token and the flag
    [allow_unauthenticated], all else at its default. *)
Definition sample_viper (token : string) (allow : bool) : Main.Viper :=
  {| Main.GetString :=
       fun key => if String.eqb key "personal_access_token" then token else "";
     Main.GetBool :=
       fun key => if String.eqb key "allow_unauthenticated" then allow
                  else false;
     Main.UnmarshalKey := fun _ => inl ["all"] |}.

Definition sample_process (token port : string) (allow : bool)
  : Main.Process :=
  {| Main.viper := sample_viper token allow;
     Main.Getenv := fun key => if String.eqb key "PORT" then port else "";
     Main.version := "1.2.3" |}.

(** A configuration store whose toolsets value does not decode. *)
Definition bad_toolsets_process : Main.Process :=
  {| Main.viper :=
       {| Main.GetString := fun _ => "ghp_abc";
          Main.GetBool := fun _ => false;
          Main.UnmarshalKey :=
            fun _ => inr (Errorf "expected a slice of strings") |};
     Main.Getenv := fun _ => "";
     Main.version := "1.2.3" |}.

(** The engine cannot be built. *)
Definition engine_failure_env : Environment :=
  {| NewMCPServer_err := Some (Errorf "no toolset named x");
     OpenFile_err := Some (Errorf "open /var/log/mcp.log: permission denied");
     select_case := ctx_Done;
     Shutdown_err := None |}.

(** The same bearer request as [gateway_request] with another token. *)
Definition gateway_request_other_token : Request :=
  {| Method := "GET"; URL_Path := "/sse"; RemoteAddr := "10.0.0.7:51234";
     Header_ := headers_of [("Authorization", "Bearer ghp_other");
                            ("X-User-ID", "u-42");
                            ("X-User-Email", "ada@example.com");
                            ("X-User-Name", "Ada");
                            ("X-Session-ID", "s-1");
                            ("X-Gateway-Request-ID", "req-9")];
     Context_ := Background |}.

(** [gateway_request] with the method and path replaced. *)
Definition gateway_request_to (method path : string) : Request :=
  {| Method := method; URL_Path := path;
     RemoteAddr := RemoteAddr gateway_request;
     Header_ := Header_ gateway_request;
     Context_ := Context_ gateway_request |}.

(** Frames under keys other than the identity key, innermost last. *)
Fixpoint with_frames (frames : list (Key * Any)) (ctx : Context) : Context :=
  match frames with
  | [] => ctx
  | (k, v) :: frames' => WithValue (with_frames frames' ctx) k v
  end.

(** A downstream handler that writes a tag and then what [whoami]
    writes. *)
Definition tagged (tag : string) : Handler :=
  fun r w => whoami r (on_resp (ResponseWriter_.Write tag) w).

(** ** JSON texts *)

(** What it is for a response body to be a JSON object reporting given
    values: a reader of JSON texts (RFC 8259) for objects whose member
    values are strings, [true] or [false], which is what the handlers
    write. It accepts nothing but JSON objects, and gives the members in
    the order of the text, strings decoded. Escapes by code point (the
    letter u after a backslash) are not read. *)
Module JSON.

Inductive value : Type :=
| JString (s : string)
| JBool (b : bool).

(** Where the reader is in the grammar of an object. *)
Inductive phase : Type :=
| Start
| BeforeFirstKey
| BeforeKey
| InKey
| InKeyEscape
| AfterKey
| BeforeValue
| InString
| InStringEscape
| InLiteral
| AfterValue
| Done.

Record state : Type := mkState {
  ph : phase;
  members : list (string * value);
  key : string;
  buf : string
}.


Fixpoint cat (a b : string) : string :=
  match a with
  | EmptyString => b
  | String c a' => String c (cat a' b)
  end.

Definition snoc (s : string) (c : ascii) : string := cat s (String c EmptyString).

Definition is_ws (c : ascii) : bool :=
  existsb (Nat.eqb (nat_of_ascii c)) (32 :: 9 :: 10 :: 13 :: nil)%nat.
Definition is_char (n : nat) (c : ascii) : bool := Nat.eqb (nat_of_ascii c) n.
Definition is_control (c : ascii) : bool := (nat_of_ascii c <? 32)%nat.
Definition is_letter (c : ascii) : bool :=
  (97 <=? nat_of_ascii c)%nat && (nat_of_ascii c <=? 122)%nat.

(** The byte a two-character escape stands for. *)
Definition unescape (c : ascii) : option ascii :=
  if is_char 34 c then Some c
  else if is_char 92 c then Some c
  else if is_char 47 c then Some c
  else if is_char 98 c then Some (ascii_of_nat 8)
  else if is_char 102 c then Some (ascii_of_nat 12)
  else if is_char 110 c then Some (ascii_of_nat 10)
  else if is_char 114 c then Some (ascii_of_nat 13)
  else if is_char 116 c then Some (ascii_of_nat 9)
  else None.



Definition set_phase (p : phase) (st : state) : state :=
  {| ph := p; members := members st; key := key st; buf := buf st |}.
Definition set_buf (b : string) (st : state) : state :=
  {| ph := ph st; members := members st; key := key st; buf := b |}.
Definition open_string (p : phase) (st : state) : state :=
  {| ph := p; members := members st; key := key st; buf := "" |}.
Definition close_key (st : state) : state :=
  {| ph := AfterKey; members := members st; key := buf st; buf := "" |}.
Definition close_value (v : value) (st : state) : state :=
  {| ph := AfterValue; members := (members st ++ [(key st, v)])%list;
     key := ""; buf := "" |}.

(** After a value: white space, a comma or the closing brace. *)
Definition after_value (st : state) (c : ascii) : option state :=
  if is_ws c then Some st
  else if is_char 44 c then Some (set_phase BeforeKey st)
  else if is_char 125 c then Some (set_phase Done st)
  else None.

(** Inside a string, be it a key ([esc] is the phase of its escapes and
    [close] what the closing quote does). *)
Definition in_string (esc : phase) (close : state -> state) (st : state)
    (c : ascii) : option state :=
  if is_char 34 c then Some (close st)
  else if is_char 92 c then Some (set_phase esc st)
  else if is_control c then None
  else Some (set_buf (snoc (buf st) c) st).

Definition in_escape (back : phase) (st : state) (c : ascii) : option state :=
  match unescape c with
  | Some d => Some (set_phase back (set_buf (snoc (buf st) d) st))
  | None => None
  end.

Definition step (st : state) (c : ascii) : option state :=
  match ph st with
  | Start =>
      if is_ws c then Some st
      else if is_char 123 c then Some (set_phase BeforeFirstKey st)
      else None
  | BeforeFirstKey =>
      if is_ws c then Some st
      else if is_char 34 c then Some (open_string InKey st)
      else if is_char 125 c then Some (set_phase Done st)
      else None
  | BeforeKey =>
      if is_ws c then Some st
      else if is_char 34 c then Some (open_string InKey st)
      else None
  | InKey => in_string InKeyEscape close_key st c
  | InKeyEscape => in_escape InKey st c
  | AfterKey =>
      if is_ws c then Some st
      else if is_char 58 c then Some (set_phase BeforeValue st)
      else None
  | BeforeValue =>
      if is_ws c then Some st
      else if is_char 34 c then Some (open_string InString st)
      else if is_letter c then
        Some (set_phase InLiteral (set_buf (String c EmptyString) st))
      else None
  | InString =>
      in_string InStringEscape (fun st => close_value (JString (buf st)) st)
        st c
  | InStringEscape => in_escape InString st c
  | InLiteral =>
      if is_letter c then Some (set_buf (snoc (buf st) c) st)
      else if String.eqb (buf st) "true" then
        after_value (close_value (JBool true) st) c
      else if String.eqb (buf st) "false" then
        after_value (close_value (JBool false) st) c
      else None
  | AfterValue => after_value st c
  | Done => if is_ws c then Some st else None
  end.

Fixpoint run (st : state) (s : string) : option state :=
  match s with
  | EmptyString => Some st
  | String c s' =>
      match step st c with
      | Some st' => run st' s'
      | None => None
      end
  end.


End JSON.




(** * Properties *)

(** ** Strings and headers *)

Section StringFacts.

Local Hint Resolve Ascii.eqb_refl : core.

Lemma HasPrefix_app (prefix rest : string) :
  strings.HasPrefix (prefix +:+ rest) prefix = true.
Proof.
  induction prefix as [|c prefix IH]; [reflexivity|].
  change (strings.HasPrefix (String c (prefix +:+ rest)) (String c prefix)
          = true).
  cbn [strings.HasPrefix]. rewrite Ascii.eqb_refl. exact IH.
Qed.

Lemma slice_from_app (prefix rest : string) :
  strings.slice_from (String.length prefix) (prefix +:+ rest) = rest.
Proof.
  induction prefix as [|c prefix IH]; [reflexivity|].
  exact IH.
Qed.

Lemma HasPrefix_split (s prefix : string) :
  strings.HasPrefix s prefix = true ->
  s = prefix +:+ strings.slice_from (String.length prefix) s.
Proof.
  revert s. induction prefix as [|c prefix IH]; intros s H.
  - reflexivity.
  - destruct s as [|d s]; [discriminate|].
    cbn [strings.HasPrefix] in H.
    destruct (Ascii.eqb_spec d c) as [->|]; [|discriminate].
    change (String c s = String c
              (prefix +:+ strings.slice_from (String.length prefix) s)).
    f_equal. apply IH, H.
Qed.

Lemma TrimPrefix_app (prefix rest : string) :
  strings.TrimPrefix (prefix +:+ rest) prefix = rest.
Proof.
  unfold strings.TrimPrefix. rewrite HasPrefix_app. apply slice_from_app.
Qed.

Lemma HasPrefix_iff (s prefix : string) :
  strings.HasPrefix s prefix = true <-> exists rest, s = prefix +:+ rest.
Proof.
  split.
  - intros H. eexists. apply HasPrefix_split, H.
  - intros [rest ->]. apply HasPrefix_app.
Qed.

End StringFacts.

Lemma Get_absent (h : Header) (key : string) :
  h !! textproto.CanonicalMIMEHeaderKey key = None ->
  http_Header.Get h key = "".
Proof. unfold http_Header.Get. intros ->. reflexivity. Qed.

Lemma Get_Set_eq (h : Header) (key value : string) :
  http_Header.Get (http_Header.Set_ h key value) key = value.
Proof.
  unfold http_Header.Get, http_Header.Set_.
  rewrite lookup_insert_eq. reflexivity.
Qed.

Lemma Get_Set_ne (h : Header) (key key' value : string) :
  textproto.CanonicalMIMEHeaderKey key <> textproto.CanonicalMIMEHeaderKey key' ->
  http_Header.Get (http_Header.Set_ h key value) key' = http_Header.Get h key'.
Proof.
  intros Hne. unfold http_Header.Get, http_Header.Set_.
  rewrite lookup_insert_ne by exact Hne. reflexivity.
Qed.

(** ** Identity extraction *)

Lemma extract_missing (r : Request) :
  http_Header.Get (Header_ r) "Authorization" = "" ->
  extractUserContext r = inr MissingCredential.
Proof. intros H. unfold extractUserContext. rewrite H. reflexivity. Qed.

Lemma extract_malformed (r : Request) :
  http_Header.Get (Header_ r) "Authorization" <> "" ->
  strings.HasPrefix (http_Header.Get (Header_ r) "Authorization") "Bearer "
    = false ->
  extractUserContext r = inr MalformedCredential.
Proof.
  intros Hne Hpre. unfold extractUserContext.
  apply String.eqb_neq in Hne. rewrite Hne, Hpre. reflexivity.
Qed.

Lemma extract_bearer (r : Request) (token : string) :
  http_Header.Get (Header_ r) "Authorization" = "Bearer " +:+ token ->
  extractUserContext r =
    if String.eqb (http_Header.Get (Header_ r) "X-User-ID") ""
       || String.eqb (http_Header.Get (Header_ r) "X-User-Email") ""
    then inr MissingIdentityClaims
    else inl (record_of (Header_ r) token).
Proof.
  intros H. unfold extractUserContext. rewrite H.
  rewrite HasPrefix_app, TrimPrefix_app. reflexivity.
Qed.

Lemma extract_claims_missing (r : Request) (token : string) :
  http_Header.Get (Header_ r) "Authorization" = "Bearer " +:+ token ->
  http_Header.Get (Header_ r) "X-User-ID" = ""
  \/ http_Header.Get (Header_ r) "X-User-Email" = "" ->
  extractUserContext r = inr MissingIdentityClaims.
Proof.
  intros H Hc. rewrite (extract_bearer r token H).
  destruct Hc as [-> | ->]; simpl; [reflexivity|].
  rewrite orb_true_r. reflexivity.
Qed.

Lemma extract_success (r : Request) (token : string) :
  http_Header.Get (Header_ r) "Authorization" = "Bearer " +:+ token ->
  http_Header.Get (Header_ r) "X-User-ID" <> "" ->
  http_Header.Get (Header_ r) "X-User-Email" <> "" ->
  extractUserContext r = inl (record_of (Header_ r) token).
Proof.
  intros H Hu He. rewrite (extract_bearer r token H).
  apply String.eqb_neq in Hu, He. rewrite Hu, He. reflexivity.
Qed.

(** Whatever record extraction returns was built from a non-empty
    [Authorization] value carrying the prefix, and from non-empty
    [X-User-ID] and [X-User-Email] values. *)
Lemma extract_inl_inv (r : Request) (u : UserContext) :
  extractUserContext r = inl u ->
  http_Header.Get (Header_ r) "Authorization" = "Bearer " +:+ Token u
  /\ u = record_of (Header_ r) (Token u)
  /\ UserID u <> "" /\ Email u <> "".
Proof.
  unfold extractUserContext.
  destruct (String.eqb_spec (http_Header.Get (Header_ r) "Authorization") "")
    as [|Hne]; [discriminate|].
  destruct (strings.HasPrefix (http_Header.Get (Header_ r) "Authorization")
              "Bearer ") eqn:Hpre; simpl; [|discriminate].
  destruct (String.eqb_spec (http_Header.Get (Header_ r) "X-User-ID") "")
    as [|Hu]; simpl; [discriminate|].
  destruct (String.eqb_spec (http_Header.Get (Header_ r) "X-User-Email") "")
    as [|He]; simpl; [discriminate|].
  intros [= <-]. simpl. repeat split; try assumption.
  unfold strings.TrimPrefix. rewrite Hpre.
  apply (HasPrefix_split _ _ Hpre).
Qed.

(** Every failure of extraction is one of the three. *)
Lemma extract_inr_inv (r : Request) (err : error) :
  extractUserContext r = inr err ->
  err = MissingCredential \/ err = MalformedCredential
  \/ err = MissingIdentityClaims.
Proof.
  unfold extractUserContext.
  destruct (String.eqb _ ""); [intros [= <-]; auto|].
  destruct (strings.HasPrefix _ _); simpl; [|intros [= <-]; auto].
  destruct (_ || _); [intros [= <-]; auto | discriminate].
Qed.

(** C1, as the design document words it, fails: the first test of
    [extractUserContext] is on the value read, not on the presence of the
    header. A request whose [Authorization] header is present with an empty
    value does not carry the bearer prefix, and yet is classified as a
    missing credential, not as a malformed one. *)
Lemma extract_empty_authorization_not_malformed :
  Header_ empty_authorization_request !! "Authorization" = Some [""]
  /\ strings.HasPrefix
       (http_Header.Get (Header_ empty_authorization_request) "Authorization")
       "Bearer " = false
  /\ extractUserContext empty_authorization_request = inr MissingCredential
  /\ extractUserContext empty_authorization_request
     <> inr MalformedCredential.
Proof.
  assert (E : extractUserContext empty_authorization_request
              = inr MissingCredential) by (vm_compute; reflexivity).
  split; [|split; [|split]].
  - vm_compute. reflexivity.
  - vm_compute. reflexivity.
  - exact E.
  - intros H. rewrite E in H. discriminate H.
Qed.

(** C1 (amended): extraction follows the ordered classification. When the
    [Authorization] header is absent or the value read for it is empty,
    extraction fails with the missing-credential error; otherwise, when the
    value does not start with the bearer prefix, it fails with the
    malformed-credential error; otherwise the prefix is stripped (what
    remains may be empty) and, when the value read for [X-User-ID] or for
    [X-User-Email] is empty, extraction fails with the
    missing-identity-claims error; otherwise it returns the record holding
    the stripped token, the two required claims and the values read for the
    three optional headers. *)
Theorem extract_ordered_classification (r : Request) :
  let h := Header_ r in
  let auth := http_Header.Get h "Authorization" in
  (h !! "Authorization" = None \/ auth = "" ->
   extractUserContext r = inr MissingCredential)
  /\ (auth <> "" -> strings.HasPrefix auth "Bearer " = false ->
      extractUserContext r = inr MalformedCredential)
  /\ (forall token, auth = "Bearer " +:+ token ->
      http_Header.Get h "X-User-ID" = ""
      \/ http_Header.Get h "X-User-Email" = "" ->
      extractUserContext r = inr MissingIdentityClaims)
  /\ (forall token, auth = "Bearer " +:+ token ->
      http_Header.Get h "X-User-ID" <> "" ->
      http_Header.Get h "X-User-Email" <> "" ->
      extractUserContext r =
        inl {| UserID := http_Header.Get h "X-User-ID";
               Email := http_Header.Get h "X-User-Email";
               Name := http_Header.Get h "X-User-Name";
               SessionID := http_Header.Get h "X-Session-ID";
               Token := token;
               RequestID := http_Header.Get h "X-Gateway-Request-ID" |}).
Proof.
  intros h auth. split; [|split; [|split]].
  - intros [Habs | Hempty]; apply extract_missing; [|exact Hempty].
    apply Get_absent. exact Habs.
  - apply extract_malformed.
  - intros token. apply extract_claims_missing.
  - intros token. apply extract_success.
Qed.

Lemma extract_ordered_classification_witness :
  extractUserContext gateway_request =
    inl {| UserID := "u-42"; Email := "ada@example.com"; Name := "Ada";
           SessionID := "s-1"; Token := "ghp_abc"; RequestID := "req-9" |}
  /\ extractUserContext (bare_request "GET" "/sse") = inr MissingCredential
  /\ extractUserContext (request_with_authorization "Token abc")
     = inr MalformedCredential
  /\ extractUserContext no_email_request = inr MissingIdentityClaims.
Proof.
  split; [|split; [|split]].
  - apply (proj2 (proj2 (proj2
             (extract_ordered_classification gateway_request))) "ghp_abc").
    + vm_compute. reflexivity.
    + vm_compute. discriminate.
    + vm_compute. discriminate.
  - apply (proj1 (extract_ordered_classification (bare_request "GET" "/sse"))).
    left. vm_compute. reflexivity.
  - apply (proj1 (proj2 (extract_ordered_classification
                           (request_with_authorization "Token abc")))).
    + vm_compute. discriminate.
    + vm_compute. reflexivity.
  - apply (proj1 (proj2 (proj2 (extract_ordered_classification
                                  no_email_request))) "ghp_abc").
    + vm_compute. reflexivity.
    + right. vm_compute. reflexivity.
Defined.

(** C9: extraction is a function of the values read for six headers. Two
    requests that agree on [Authorization], [X-User-ID], [X-User-Email],
    [X-User-Name], [X-Session-ID] and [X-Gateway-Request-ID] get the same
    outcome, the same record or the same failure, whatever else differs
    between them (method, path, peer, context, other headers). The outcome
    is a value computed from the request alone: extraction neither reads
    nor changes the world. *)
Theorem extract_depends_on_six_headers (r1 r2 : Request) :
  (forall key,
      In key ["Authorization"; "X-User-ID"; "X-User-Email"; "X-User-Name";
              "X-Session-ID"; "X-Gateway-Request-ID"] ->
      http_Header.Get (Header_ r1) key = http_Header.Get (Header_ r2) key) ->
  extractUserContext r1 = extractUserContext r2.
Proof.
  intros Hagree. unfold extractUserContext.
  rewrite (Hagree "Authorization"), (Hagree "X-User-ID"),
    (Hagree "X-User-Email"), (Hagree "X-User-Name"),
    (Hagree "X-Session-ID"), (Hagree "X-Gateway-Request-ID");
    [reflexivity | simpl; tauto ..].
Qed.

Lemma extract_depends_on_six_headers_witness :
  gateway_request <> gateway_request'
  /\ extractUserContext gateway_request = extractUserContext gateway_request'.
Proof.
  split.
  - intros H. apply (f_equal Method) in H. discriminate H.
  - apply (extract_depends_on_six_headers gateway_request gateway_request').
    intros key Hin. simpl in Hin.
    repeat (destruct Hin as [<- | Hin]; [vm_compute; reflexivity|]).
    destruct Hin.
Defined.

(** C10: the bearer test is an exact, case-sensitive prefix match on
    "Bearer " (capital B, one trailing space). Extraction fails with the
    malformed-credential error exactly on the requests whose
    [Authorization] value is non-empty and does not start with that
    prefix; so it does on the values "bearer abc", "BEARER abc" and
    "Bearer". A value made of the prefix followed by anything passes the
    test: with non-empty [X-User-ID] and [X-User-Email], extraction returns
    the record whose token is what follows the prefix, and the value
    "Bearer " alone gives the empty token. *)
Theorem bearer_prefix_exact :
  (forall r : Request,
      extractUserContext r = inr MalformedCredential <->
      http_Header.Get (Header_ r) "Authorization" <> ""
      /\ forall rest,
           http_Header.Get (Header_ r) "Authorization" <> "Bearer " +:+ rest)
  /\ (forall r : Request,
         http_Header.Get (Header_ r) "Authorization" <> "" ->
         (forall rest,
             http_Header.Get (Header_ r) "Authorization"
             <> "Bearer " +:+ rest) ->
         extractUserContext r = inr MalformedCredential)
  /\ (forall (r : Request) (rest : string),
         http_Header.Get (Header_ r) "Authorization" = "Bearer " +:+ rest ->
         http_Header.Get (Header_ r) "X-User-ID" <> "" ->
         http_Header.Get (Header_ r) "X-User-Email" <> "" ->
         extractUserContext r =
           inl {| UserID := http_Header.Get (Header_ r) "X-User-ID";
                  Email := http_Header.Get (Header_ r) "X-User-Email";
                  Name := http_Header.Get (Header_ r) "X-User-Name";
                  SessionID := http_Header.Get (Header_ r) "X-Session-ID";
                  Token := rest;
                  RequestID :=
                    http_Header.Get (Header_ r) "X-Gateway-Request-ID" |})
  /\ extractUserContext (request_with_authorization "bearer abc")
     = inr MalformedCredential
  /\ extractUserContext (request_with_authorization "BEARER abc")
     = inr MalformedCredential
  /\ extractUserContext (request_with_authorization "Bearer")
     = inr MalformedCredential
  /\ (forall r : Request,
         http_Header.Get (Header_ r) "Authorization" = "Bearer " ->
         http_Header.Get (Header_ r) "X-User-ID" <> "" ->
         http_Header.Get (Header_ r) "X-User-Email" <> "" ->
         exists u, extractUserContext r = inl u /\ Token u = ""
                   /\ UserID u = http_Header.Get (Header_ r) "X-User-ID"
                   /\ Email u = http_Header.Get (Header_ r) "X-User-Email").
Proof.
  assert (Hmal : forall r : Request,
             http_Header.Get (Header_ r) "Authorization" <> "" ->
             (forall rest,
                 http_Header.Get (Header_ r) "Authorization"
                 <> "Bearer " +:+ rest) ->
             extractUserContext r = inr MalformedCredential).
  { intros r Hne Hno. apply extract_malformed; [exact Hne|].
    destruct (strings.HasPrefix _ _) eqn:Hpre; [|reflexivity].
    apply HasPrefix_iff in Hpre. destruct Hpre as [rest Hrest].
    exfalso. exact (Hno rest Hrest). }
  split; [|split; [exact Hmal|split; [|split; [|split; [|split]]]]].
  - intros r. split; [|intros [Hne Hno]; exact (Hmal r Hne Hno)].
    intros E.
    destruct (String.eqb_spec
                (http_Header.Get (Header_ r) "Authorization") "")
      as [Hempty | Hne].
    { rewrite (extract_missing r Hempty) in E. discriminate E. }
    split; [exact Hne|]. intros rest Hrest.
    rewrite (extract_bearer r rest Hrest) in E.
    destruct (_ || _); discriminate E.
  - intros r rest. apply extract_success.
  - vm_compute. reflexivity.
  - vm_compute. reflexivity.
  - vm_compute. reflexivity.
  - intros r Hauth Hu He.
    exists (record_of (Header_ r) "").
    split; [|split; [|split]]; try reflexivity.
    apply extract_success; [|exact Hu|exact He].
    rewrite Hauth. reflexivity.
Qed.

Lemma bearer_prefix_exact_witness :
  extractUserContext (request_with_authorization "Basic dXNlcjpwdw==")
  = inr MalformedCredential
  /\ extractUserContext (request_with_authorization "Bearer ghp_abc")
     = inl {| UserID := "u-42"; Email := "ada@example.com"; Name := "";
              SessionID := ""; Token := "ghp_abc"; RequestID := "" |}
  /\ extractUserContext (request_with_authorization "Bearer ghp_abc")
     <> inr MalformedCredential
  /\ exists u, extractUserContext (request_with_authorization "Bearer ")
               = inl u /\ Token u = "".
Proof.
  split; [|split; [|split]].
  - apply (proj1 (proj2 bearer_prefix_exact)).
    + vm_compute. discriminate.
    + intros rest. vm_compute. discriminate.
  - apply (proj1 (proj2 (proj2 bearer_prefix_exact))
             (request_with_authorization "Bearer ghp_abc") "ghp_abc").
    + vm_compute. reflexivity.
    + vm_compute. discriminate.
    + vm_compute. discriminate.
  - intros E.
    apply (proj1 (proj1 bearer_prefix_exact
                    (request_with_authorization "Bearer ghp_abc"))) in E.
    destruct E as [_ Hno]. apply (Hno "ghp_abc"). vm_compute. reflexivity.
  - destruct (proj2 (proj2 (proj2 (proj2 (proj2 (proj2 bearer_prefix_exact)))))
                (request_with_authorization "Bearer ")) as (u & Hu & Ht & _).
    + vm_compute. reflexivity.
    + vm_compute. discriminate.
    + vm_compute. discriminate.
    + exists u. split; assumption.
Defined.

(** ** Context lookup *)

Lemma GetUserContext_WithUserContext (ctx : Context) (p : option UserContext) :
  GetUserContext (WithUserContext ctx p) = (p, true).
Proof.
  unfold GetUserContext, WithUserContext.
  cbn [Value]. rewrite decide_True by reflexivity. reflexivity.
Qed.

Lemma GetUserContext_other_key (ctx : Context) (k : Key) (v : Any) :
  k <> userContextKey ->
  GetUserContext (WithValue ctx k v) = GetUserContext ctx.
Proof.
  intros Hne. unfold GetUserContext. cbn [Value].
  rewrite decide_False by exact Hne. reflexivity.
Qed.

Lemma GetUserContext_absent_flag (ctx : Context) (p : option UserContext) :
  GetUserContext ctx = (p, false) -> p = None.
Proof.
  unfold GetUserContext. destruct (Value ctx userContextKey); congruence.
Qed.

(** ** What a gate does with the wrapped handler *)

Lemma fresh_world_inj (s t : string) : fresh_world s = fresh_world t -> s = t.
Proof. intros H. apply (f_equal now_RFC3339) in H. exact H. Qed.

(** What a gate hands to the wrapped handler is determined by the gate. *)
Lemma forwards_unique (M : Handler -> Handler) (r : Request) (w : World)
    (r1 r2 : Request) (w1 w2 : World) :
  forwards M r w r1 w1 -> forwards M r w r2 w2 -> r1 = r2 /\ w1 = w2.
Proof.
  intros H1 H2.
  pose (probe := fun (r0 : Request) (w0 : World) =>
                   if decide (r0 = r1 /\ w0 = w1) then fresh_world "a"
                   else fresh_world "b").
  specialize (H1 probe). specialize (H2 probe).
  rewrite H1 in H2. unfold probe in H2.
  rewrite decide_True in H2 by (split; reflexivity).
  destruct (decide (r2 = r1 /\ w2 = w1)) as [[-> ->]|_].
  - split; reflexivity.
  - apply fresh_world_inj in H2. discriminate H2.
Qed.

(** A gate that answers by itself hands nothing to the wrapped handler. *)
Lemma answers_not_forwards (M : Handler -> Handler) (r : Request) (w : World)
    (w' : World) (r1 : Request) (w1 : World) :
  answers M r w w' -> forwards M r w r1 w1 -> False.
Proof.
  intros Ha Hf.
  pose proof (Hf (fun _ _ => fresh_world "a")) as Fa.
  pose proof (Hf (fun _ _ => fresh_world "b")) as Fb.
  rewrite (Ha _) in Fa. rewrite (Ha _) in Fb. cbv beta in Fa, Fb.
  rewrite Fa in Fb. apply fresh_world_inj in Fb. discriminate Fb.
Qed.

(** ** The strict gate *)

(** The world the strict gate hands on, after its two log entries. *)
Lemma strict_forwards (r : Request) (w : World) (u : UserContext) :
  extractUserContext r = inl u ->
  exists w',
    forwards AuthenticationMiddleware r w
      (WithContext r (WithUserContext (Context_ r) (Some u))) w'
    /\ resp w' = resp w /\ now_RFC3339 w' = now_RFC3339 w.
Proof.
  intros E. eexists. split.
  - intros next. unfold AuthenticationMiddleware. rewrite E. reflexivity.
  - split; reflexivity.
Qed.

Lemma strict_answers (r : Request) (w : World) (err : error) :
  extractUserContext r = inr err ->
  exists w',
    answers AuthenticationMiddleware r w w'
    /\ (wroteHeader (resp w) = false ->
        wroteHeader (resp w') = true
        /\ status (resp w') = StatusUnauthorized
        /\ body (resp w') = body (resp w) +:+ unauthorized_body (Error err)
        /\ sentHeader (resp w')
           = http_Header.Set_ (rw_header (resp w))
               "Content-Type" "application/json").
Proof.
  intros E. eexists. split.
  - intros next. unfold AuthenticationMiddleware. rewrite E. reflexivity.
  - intros Hfresh. cbn [resp on_resp logrus_log].
    unfold ResponseWriter_.Write, ResponseWriter_.WriteHeader,
      ResponseWriter_.Header_Set.
    cbn [wroteHeader rw_header status body sentHeader].
    rewrite Hfresh. cbn [wroteHeader rw_header status body sentHeader].
    repeat (split; [reflexivity|]). reflexivity.
Qed.

(** ** The optional gate *)

Lemma optional_forwards_success (r : Request) (w : World) (u : UserContext) :
  extractUserContext r = inl u ->
  exists w',
    forwards OptionalAuthenticationMiddleware r w
      (WithContext r (WithUserContext (Context_ r) (Some u))) w'
    /\ resp w' = resp w /\ now_RFC3339 w' = now_RFC3339 w.
Proof.
  intros E. eexists. split.
  - intros next. unfold OptionalAuthenticationMiddleware. rewrite E.
    reflexivity.
  - split; reflexivity.
Qed.

Lemma optional_forwards_failure (r : Request) (w : World) (err : error) :
  extractUserContext r = inr err ->
  exists w',
    forwards OptionalAuthenticationMiddleware r w r w'
    /\ resp w' = resp w /\ now_RFC3339 w' = now_RFC3339 w.
Proof.
  intros E. eexists. split.
  - intros next. unfold OptionalAuthenticationMiddleware. rewrite E.
    reflexivity.
  - split; reflexivity.
Qed.

(** C2: the strict gate. On a request for which extraction fails with
    [err], the gate ends by itself, whatever handler it wraps (the
    downstream handler is not run); on a response not yet started, the
    status sent is 401, the content type sent is [application/json], and
    the body written is the object with the fields [error], holding
    "authentication required", and [message], holding the text of [err]
    verbatim. On a request for which extraction succeeds with the record
    [u], the gate runs the downstream handler on the request with [u]
    attached to its context, and has written nothing to the response. *)
Theorem strict_gate (r : Request) (w : World) :
  (forall err, extractUserContext r = inr err ->
     exists w',
       answers AuthenticationMiddleware r w w'
       /\ (wroteHeader (resp w) = false ->
           status (resp w') = 401%Z
           /\ body (resp w')
              = body (resp w) +:+
                ("{" +:+ quoted "error" +:+ ":"
                     +:+ quoted "authentication required" +:+ ","
                     +:+ quoted "message" +:+ ":" +:+ dq)
                +:+ Error err +:+ (dq +:+ "}")
           /\ http_Header.Get (sentHeader (resp w')) "Content-Type"
              = "application/json"))
  /\ (forall u, extractUserContext r = inl u ->
        exists r' w',
          forwards AuthenticationMiddleware r w r' w'
          /\ r' = WithContext r (WithUserContext (Context_ r) (Some u))
          /\ GetUserContext (Context_ r') = (Some u, true)
          /\ resp w' = resp w).
Proof.
  split.
  - intros err E. destruct (strict_answers r w err E) as (w' & Ha & Hw).
    exists w'. split; [exact Ha|]. intros Hfresh.
    destruct (Hw Hfresh) as (_ & Hs & Hb & Hh).
    split; [exact Hs|]. split; [exact Hb|].
    rewrite Hh. apply Get_Set_eq.
  - intros u E. destruct (strict_forwards r w u E) as (w' & Hf & Hr & _).
    eexists _, w'. split; [exact Hf|]. split; [reflexivity|].
    split; [apply GetUserContext_WithUserContext | exact Hr].
Qed.

Lemma strict_gate_witness :
  (let w' := AuthenticationMiddleware whoami (bare_request "GET" "/sse")
               (fresh_world "2025-06-01T12:00:00Z") in
   status (resp w') = 401%Z
   /\ body (resp w')
      = "{" +:+ quoted "error" +:+ ":" +:+ quoted "authentication required"
            +:+ "," +:+ quoted "message" +:+ ":"
            +:+ quoted "missing Authorization header" +:+ "}")
  /\ body (resp (AuthenticationMiddleware whoami gateway_request
                   (fresh_world "2025-06-01T12:00:00Z"))) = "u-42".
Proof.
  split.
  - destruct (proj1 (strict_gate (bare_request "GET" "/sse")
                       (fresh_world "2025-06-01T12:00:00Z"))
                MissingCredential) as (w' & Ha & Hw).
    + vm_compute. reflexivity.
    + cbv zeta. rewrite (Ha whoami).
      destruct Hw as (Hs & Hb & _); [reflexivity|].
      split; [exact Hs | exact Hb].
  - destruct (proj2 (strict_gate gateway_request
                       (fresh_world "2025-06-01T12:00:00Z"))
                {| UserID := "u-42"; Email := "ada@example.com";
                   Name := "Ada"; SessionID := "s-1"; Token := "ghp_abc";
                   RequestID := "req-9" |})
      as (r' & w' & Hf & Hr' & Hg & Hresp).
    + vm_compute. reflexivity.
    + rewrite (Hf whoami). unfold whoami. rewrite Hg.
      cbn [on_resp resp]. rewrite Hresp. reflexivity.
Defined.

(** C3: the identity a downstream handler can look up is all or nothing.
    For a request that comes in with nothing attached, under either gate,
    the gate ends by itself, or it hands on a request on whose context the
    lookup returns (absent, false), or one on which it returns a record
    together with [true], and that record has a non-empty subject
    identifier, a non-empty email, and the token of a credential header
    that was present with the bearer prefix. When extraction fails, the
    request handed on, if any, is the incoming one: nothing is attached.
    Extraction itself never returns a record short of these. *)
Theorem identity_all_or_nothing (M : Handler -> Handler) (r : Request)
    (w : World) :
  M = AuthenticationMiddleware \/ M = OptionalAuthenticationMiddleware ->
  unattached (Context_ r) ->
  ((exists w', answers M r w w')
   \/ (exists r' w', forwards M r w r' w'
         /\ (GetUserContext (Context_ r') = (None, false)
             \/ exists u, GetUserContext (Context_ r') = (Some u, true)
                          /\ well_formed_for r u)))
  /\ (forall err, extractUserContext r = inr err ->
        (exists w', answers M r w w')
        \/ (exists w', forwards M r w r w'))
  /\ (forall u, extractUserContext r = inl u -> well_formed_for r u).
Proof.
  intros HM Hun.
  assert (Hwf : forall u, extractUserContext r = inl u -> well_formed_for r u).
  { intros u E. destruct (extract_inl_inv r u E) as (Ha & _ & Hu & He).
    unfold well_formed_for. split; [exact Hu|]. split; [exact He|].
    split; [|exact Ha]. rewrite Ha. discriminate. }
  split; [|split; [|exact Hwf]].
  - destruct (extractUserContext r) as [u|err] eqn:E.
    + right. exists (WithContext r (WithUserContext (Context_ r) (Some u))).
      destruct HM as [-> | ->].
      * destruct (strict_forwards r w u E) as (w' & Hf & _).
        exists w'. split; [exact Hf|]. right. exists u.
        split; [apply GetUserContext_WithUserContext | apply Hwf; reflexivity].
      * destruct (optional_forwards_success r w u E) as (w' & Hf & _).
        exists w'. split; [exact Hf|]. right. exists u.
        split; [apply GetUserContext_WithUserContext | apply Hwf; reflexivity].
    + destruct HM as [-> | ->].
      * left. destruct (strict_answers r w err E) as (w' & Ha & _).
        exists w'. exact Ha.
      * right. destruct (optional_forwards_failure r w err E) as (w' & Hf & _).
        exists r, w'. split; [exact Hf|]. left. exact Hun.
  - intros err E. destruct HM as [-> | ->].
    + left. destruct (strict_answers r w err E) as (w' & Ha & _).
      exists w'. exact Ha.
    + right. destruct (optional_forwards_failure r w err E) as (w' & Hf & _).
      exists w'. exact Hf.
Qed.

Lemma identity_all_or_nothing_witness :
  extractUserContext no_email_request = inr MissingIdentityClaims
  /\ exists w',
       forwards OptionalAuthenticationMiddleware no_email_request
         (fresh_world "2025-06-01T12:00:00Z") no_email_request w'
       /\ GetUserContext (Context_ no_email_request) = (None, false).
Proof.
  assert (E : extractUserContext no_email_request
              = inr MissingIdentityClaims) by (vm_compute; reflexivity).
  split; [exact E|].
  destruct (proj1 (proj2 (identity_all_or_nothing
                            OptionalAuthenticationMiddleware no_email_request
                            (fresh_world "2025-06-01T12:00:00Z")
                            (or_intror eq_refl) eq_refl))
              MissingIdentityClaims E) as [(w' & Ha) | (w' & Hf)].
  - exfalso.
    destruct (optional_forwards_failure no_email_request
                (fresh_world "2025-06-01T12:00:00Z") _ E) as (w1 & Hf & _).
    exact (answers_not_forwards _ _ _ _ _ _ Ha Hf).
  - exists w'. split; [exact Hf | reflexivity].
Defined.

(** C4: the optional gate. On a request for which extraction fails, the
    gate runs the downstream handler on the incoming request itself, so
    nothing is attached and a lookup on a context that came in unattached
    returns (absent, false); the gate has written nothing to the response,
    and the result is the downstream handler's. On a request for which
    extraction succeeds, the gate hands on the same request as the strict
    gate does, with the record attached, again without writing to the
    response. In no case does the gate answer by itself. *)
Theorem optional_gate (r : Request) (w : World) :
  (forall err, extractUserContext r = inr err ->
     exists w',
       forwards OptionalAuthenticationMiddleware r w r w'
       /\ resp w' = resp w
       /\ (unattached (Context_ r) ->
           GetUserContext (Context_ r) = (None, false)))
  /\ (forall u, extractUserContext r = inl u ->
        exists r' w1 w2,
          forwards OptionalAuthenticationMiddleware r w r' w1
          /\ forwards AuthenticationMiddleware r w r' w2
          /\ r' = WithContext r (WithUserContext (Context_ r) (Some u))
          /\ GetUserContext (Context_ r') = (Some u, true)
          /\ resp w1 = resp w /\ resp w2 = resp w)
  /\ ~ (exists w', answers OptionalAuthenticationMiddleware r w w').
Proof.
  split; [|split].
  - intros err E.
    destruct (optional_forwards_failure r w err E) as (w' & Hf & Hr & _).
    exists w'. split; [exact Hf|]. split; [exact Hr|]. intros H. exact H.
  - intros u E.
    destruct (optional_forwards_success r w u E) as (w1 & Hf1 & Hr1 & _).
    destruct (strict_forwards r w u E) as (w2 & Hf2 & Hr2 & _).
    eexists _, w1, w2. split; [exact Hf1|]. split; [exact Hf2|].
    split; [reflexivity|].
    split; [apply GetUserContext_WithUserContext|].
    split; [exact Hr1 | exact Hr2].
  - intros (w' & Ha). destruct (extractUserContext r) as [u|err] eqn:E.
    + destruct (optional_forwards_success r w u E) as (w1 & Hf & _).
      exact (answers_not_forwards _ _ _ _ _ _ Ha Hf).
    + destruct (optional_forwards_failure r w err E) as (w1 & Hf & _).
      exact (answers_not_forwards _ _ _ _ _ _ Ha Hf).
Qed.

Lemma optional_gate_witness :
  let w' := OptionalAuthenticationMiddleware whoami (bare_request "GET" "/sse")
              (fresh_world "2025-06-01T12:00:00Z") in
  body (resp w') = "anonymous" /\ status (resp w') = 200%Z.
Proof.
  destruct (proj1 (optional_gate (bare_request "GET" "/sse")
                     (fresh_world "2025-06-01T12:00:00Z"))
              MissingCredential) as (w' & Hf & Hresp & Hun).
  - vm_compute. reflexivity.
  - cbv zeta. rewrite (Hf whoami). unfold whoami.
    rewrite (Hun eq_refl). cbn [on_resp resp]. rewrite Hresp.
    split; reflexivity.
Defined.

(** C6: for a request whose [Authorization] value is the bearer prefix
    followed by a token, and whose [X-User-ID] and [X-User-Email] values
    are non-empty, extraction returns the record with all six fields read
    from the headers, and under either gate the downstream handler gets a
    request on whose context the lookup returns that record together with
    [true]. The lookup returns a (record, presence) pair: (record, true)
    on a context the record was attached to, (absent, false) on the
    background context and on any context holding nothing under the
    identity key; a frame under another key changes nothing, and a false
    presence flag always comes with an absent record. *)
Theorem lookup_after_extraction :
  (forall (r : Request) (w : World) (token : string),
      http_Header.Get (Header_ r) "Authorization" = "Bearer " +:+ token ->
      http_Header.Get (Header_ r) "X-User-ID" <> "" ->
      http_Header.Get (Header_ r) "X-User-Email" <> "" ->
      let u := {| UserID := http_Header.Get (Header_ r) "X-User-ID";
                  Email := http_Header.Get (Header_ r) "X-User-Email";
                  Name := http_Header.Get (Header_ r) "X-User-Name";
                  SessionID := http_Header.Get (Header_ r) "X-Session-ID";
                  Token := token;
                  RequestID :=
                    http_Header.Get (Header_ r) "X-Gateway-Request-ID" |} in
      extractUserContext r = inl u
      /\ exists r' w1 w2,
           forwards AuthenticationMiddleware r w r' w1
           /\ forwards OptionalAuthenticationMiddleware r w r' w2
           /\ GetUserContext (Context_ r') = (Some u, true))
  /\ (forall ctx u,
         GetUserContext (WithUserContext ctx (Some u)) = (Some u, true))
  /\ GetUserContext Background = (None, false)
  /\ (forall ctx, Value ctx userContextKey = nilAny ->
                  GetUserContext ctx = (None, false))
  /\ (forall ctx k v, k <> userContextKey ->
                      GetUserContext (WithValue ctx k v) = GetUserContext ctx)
  /\ (forall ctx p, GetUserContext ctx = (p, false) -> p = None).
Proof.
  split; [|split; [|split; [|split; [|split]]]].
  - intros r w token Ha Hu He u.
    assert (E : extractUserContext r = inl u)
      by exact (extract_success r token Ha Hu He).
    split; [exact E|].
    destruct (strict_forwards r w u E) as (w1 & Hf1 & _).
    destruct (optional_forwards_success r w u E) as (w2 & Hf2 & _).
    eexists _, w1, w2. split; [exact Hf1|]. split; [exact Hf2|].
    apply GetUserContext_WithUserContext.
  - intros ctx u. apply GetUserContext_WithUserContext.
  - reflexivity.
  - intros ctx H. unfold GetUserContext. rewrite H. reflexivity.
  - apply GetUserContext_other_key.
  - apply GetUserContext_absent_flag.
Qed.

Lemma lookup_after_extraction_witness :
  body (resp (AuthenticationMiddleware whoami gateway_request'
                (fresh_world "2025-06-01T12:00:00Z"))) = "u-42"
  /\ GetUserContext (Context_ gateway_request') = (None, false).
Proof.
  split.
  - destruct (proj1 lookup_after_extraction gateway_request'
                (fresh_world "2025-06-01T12:00:00Z") "ghp_abc")
      as (E & r' & w1 & w2 & Hf & _ & Hg).
    + vm_compute. reflexivity.
    + vm_compute. discriminate.
    + vm_compute. discriminate.
    + rewrite (Hf whoami). unfold whoami. rewrite Hg.
      destruct (strict_forwards gateway_request'
                  (fresh_world "2025-06-01T12:00:00Z") _ E)
        as (w1' & Hf' & Hresp & _).
      destruct (forwards_unique _ _ _ _ _ _ _ Hf Hf') as [_ ->].
      cbn [on_resp resp]. rewrite Hresp. vm_compute. reflexivity.
  - apply (proj1 (proj2 (proj2 (proj2 (proj2 lookup_after_extraction))))
             Background (foreignKey "string" "user_context")
             (foreignAny "string" "x")).
    discriminate.
Defined.

(** ** The CORS envelope and the unauthenticated endpoints *)


(** The three header values the envelope sets. *)
Lemma cors_sets (w0 : World) (h : Header) :
  rw_header (resp w0)
  = http_Header.Set_
      (http_Header.Set_
         (http_Header.Set_ h "Access-Control-Allow-Origin" "*")
         "Access-Control-Allow-Methods" "GET, POST, PUT, DELETE, OPTIONS")
      "Access-Control-Allow-Headers"
      "Authorization, Content-Type, X-User-ID, X-User-Email, X-User-Name, X-Session-ID, X-Gateway-Request-ID" ->
  http_Header.Get (rw_header (resp w0)) "Access-Control-Allow-Origin" = "*"
  /\ http_Header.Get (rw_header (resp w0)) "Access-Control-Allow-Methods"
     = "GET, POST, PUT, DELETE, OPTIONS"
  /\ http_Header.Get (rw_header (resp w0)) "Access-Control-Allow-Headers"
     = "Authorization, Content-Type, X-User-ID, X-User-Email, X-User-Name, X-Session-ID, X-Gateway-Request-ID".
Proof.
  intros ->. split; [|split].
  - rewrite !Get_Set_ne by (vm_compute; discriminate). apply Get_Set_eq.
  - rewrite Get_Set_ne by (vm_compute; discriminate). apply Get_Set_eq.
  - apply Get_Set_eq.
Qed.

(** C7: the CORS envelope. Whatever the path and the method, it first sets
    on the response the origin allow header to the star, the method allow
    list to exactly GET, POST, PUT, DELETE, OPTIONS and the header allow
    list to exactly Authorization, Content-Type, X-User-ID, X-User-Email,
    X-User-Name, X-Session-ID, X-Gateway-Request-ID, touching nothing else.
    For an OPTIONS request it then sends status 200 and ends by itself,
    the routed handler not being run and no body written; for any other
    method it runs the routed handler on the same request. On the server's
    handler, an OPTIONS request to any path, with any headers, gets status
    200, an empty body and exactly these three headers, and no
    authentication step has run (nothing is logged). *)
Theorem cors_envelope :
  (forall (r : Request) (w : World),
     exists w0,
       (http_Header.Get (rw_header (resp w0)) "Access-Control-Allow-Origin"
        = "*"
        /\ http_Header.Get (rw_header (resp w0)) "Access-Control-Allow-Methods"
           = "GET, POST, PUT, DELETE, OPTIONS"
        /\ http_Header.Get (rw_header (resp w0)) "Access-Control-Allow-Headers"
           = "Authorization, Content-Type, X-User-ID, X-User-Email, X-User-Name, X-Session-ID, X-Gateway-Request-ID")
       /\ (wroteHeader (resp w0) = wroteHeader (resp w)
           /\ status (resp w0) = status (resp w)
           /\ body (resp w0) = body (resp w)
           /\ logged w0 = logged w)
       /\ (Method r = "OPTIONS" ->
           exists w',
             answers addSimpleCORS r w w'
             /\ body (resp w') = body (resp w)
             /\ rw_header (resp w') = rw_header (resp w0)
             /\ (wroteHeader (resp w) = false ->
                 status (resp w') = 200%Z
                 /\ sentHeader (resp w') = rw_header (resp w0)))
       /\ (Method r <> "OPTIONS" -> forwards addSimpleCORS r w r w0))
  /\ (forall cfg allowUnauthenticated SSEHandler MessageHandler
             (r : Request) (t : string),
         Method r = "OPTIONS" ->
         let w' := corsHandler cfg allowUnauthenticated SSEHandler
                     MessageHandler r (fresh_world t) in
         status (resp w') = 200%Z
         /\ body (resp w') = ""
         /\ sentHeader (resp w')
            = list_to_map
                [("Access-Control-Allow-Origin", ["*"]);
                 ("Access-Control-Allow-Methods",
                   ["GET, POST, PUT, DELETE, OPTIONS"]);
                 ("Access-Control-Allow-Headers",
                   ["Authorization, Content-Type, X-User-ID, X-User-Email, X-User-Name, X-Session-ID, X-Gateway-Request-ID"])]
         /\ logged w' = []).
Proof.
  split.
  - intros r w.
    exists (on_resp
              (ResponseWriter_.Header_Set "Access-Control-Allow-Headers"
                 "Authorization, Content-Type, X-User-ID, X-User-Email, X-User-Name, X-Session-ID, X-Gateway-Request-ID")
              (on_resp
                 (ResponseWriter_.Header_Set "Access-Control-Allow-Methods"
                    "GET, POST, PUT, DELETE, OPTIONS")
                 (on_resp
                    (ResponseWriter_.Header_Set
                       "Access-Control-Allow-Origin" "*") w))).
    split; [apply (cors_sets _ (rw_header (resp w)))|].
    2: split; [|split].
    + reflexivity.
    + repeat (split; [reflexivity|]). reflexivity.
    + intros Hm. eexists. split.
      * intros next. unfold addSimpleCORS. rewrite Hm.
        change (String.eqb "OPTIONS" "OPTIONS") with true. cbv iota.
        reflexivity.
      * split; [|split].
        -- cbn [resp on_resp]. unfold ResponseWriter_.WriteHeader.
           destruct (wroteHeader _); reflexivity.
        -- cbn [resp on_resp]. unfold ResponseWriter_.WriteHeader.
           destruct (wroteHeader _); reflexivity.
        -- intros Hfresh. cbn [resp on_resp].
           unfold ResponseWriter_.WriteHeader.
           cbn [wroteHeader ResponseWriter_.Header_Set].
           rewrite Hfresh. split; reflexivity.
    + intros Hm next. unfold addSimpleCORS.
      apply String.eqb_neq in Hm. rewrite Hm. reflexivity.
  - intros cfg allow sse msg r t Hm w'. subst w'.
    unfold corsHandler, addSimpleCORS. rewrite Hm.
    vm_compute. repeat (split; [reflexivity|]). reflexivity.
Qed.

Lemma cors_envelope_witness :
  let w' := corsHandler sample_config false whoami whoami
              (bare_request "OPTIONS" "/sse")
              (fresh_world "2025-06-01T12:00:00Z") in
  status (resp w') = 200%Z /\ body (resp w') = "" /\ logged w' = [].
Proof.
  destruct (proj2 cors_envelope sample_config false whoami whoami
              (bare_request "OPTIONS" "/sse") "2025-06-01T12:00:00Z" eq_refl)
    as (Hs & Hb & _ & Hl).
  cbv zeta. split; [exact Hs|]. split; [exact Hb | exact Hl].
Defined.




(** *** Bodies as JSON texts *)











(** ** Start, wait and shutdown *)

(** C5, as the design document words it, fails: when the listener reports
    a fatal error the run never calls [Shutdown]; it returns the wrapped
    error at once. On a termination signal it does call [Shutdown] with
    the 30 second budget. *)
Lemma listener_failure_skips_shutdown :
  select_case listener_failure_env = errC_recv (Some accept_failure)
  /\ accept_failure <> ErrServerClosed
  /\ ~ In (Shutdown (30 * Second))
          (fst (RunSSEServerWithSimpleAuth sample_config false
                  listener_failure_env))
  /\ fst (RunSSEServerWithSimpleAuth sample_config false listener_failure_env)
     = [ListenAndServe ":8080"]
  /\ In (Shutdown (30 * Second))
        (fst (RunSSEServerWithSimpleAuth sample_config false signal_env)).
Proof.
  split; [reflexivity|]. split; [discriminate|].
  split; [|split].
  - vm_compute. intros [H | []]. discriminate H.
  - reflexivity.
  - vm_compute. right. left. reflexivity.
Qed.

(** C5 (amended): once the server is started, when the listener's
    goroutine reports an error other than nil and the closed-server
    sentinel, the run returns that error, wrapped with the text
    "error running server: ", without calling [Shutdown]: there is no
    drain on this path. The drain, one call of [Shutdown] with the fixed
    budget of 30 seconds whose result is returned to the caller, is
    entered on a termination signal, and when the listener's goroutine
    reports nil or the closed-server sentinel. *)
Theorem listener_failure_returns_at_once (cfg : Config.SSEServerConfig)
    (allowUnauthenticated : bool) (env : Environment) :
  NewMCPServer_err env = None ->
  Config.LogFilePath cfg = "" \/ OpenFile_err env = None ->
  (forall err, select_case env = errC_recv (Some err) ->
               err <> ErrServerClosed ->
               RunSSEServerWithSimpleAuth cfg allowUnauthenticated env
               = ([ListenAndServe (Config.ListenAddr cfg)],
                  Some (ErrorfW "error running server: " err)))
  /\ (select_case env = ctx_Done
      \/ select_case env = errC_recv None
      \/ select_case env = errC_recv (Some ErrServerClosed) ->
      RunSSEServerWithSimpleAuth cfg allowUnauthenticated env
      = ([ListenAndServe (Config.ListenAddr cfg);
          Shutdown (30 * 1000000000)],
         Shutdown_err env)).
Proof.
  intros Hnew Hlog.
  assert (Hopen : (if negb (String.eqb (Config.LogFilePath cfg) "")
                   then OpenFile_err env else None) = None).
  { destruct Hlog as [-> | ->]; [reflexivity|].
    destruct (negb _); reflexivity. }
  unfold RunSSEServerWithSimpleAuth. rewrite Hnew, Hopen.
  split.
  - intros err Hsel Hne. rewrite Hsel.
    rewrite bool_decide_eq_false_2 by exact Hne. reflexivity.
  - intros [-> | [-> | ->]]; reflexivity.
Qed.

Lemma listener_failure_returns_at_once_witness :
  RunSSEServerWithSimpleAuth sample_config false listener_failure_env
  = ([ListenAndServe ":8080"],
     Some (ErrorfW "error running server: " accept_failure))
  /\ RunSSEServerWithSimpleAuth sample_config false signal_env
     = ([ListenAndServe ":8080"; Shutdown 30000000000], None).
Proof.
  split.
  - apply (proj1 (listener_failure_returns_at_once sample_config false
                    listener_failure_env eq_refl (or_introl eq_refl))
             accept_failure).
    + reflexivity.
    + discriminate.
  - apply (proj2 (listener_failure_returns_at_once sample_config false
                    signal_env eq_refl (or_introl eq_refl))).
    left. reflexivity.
Defined.

(** * Further properties of the code *)

(** ** The run of the server *)

(** X1: the calls a run makes to the HTTP server have one of three shapes:
    none, the start of the listener alone, or the start followed by one
    [Shutdown] with the budget of 30 seconds. A run returns nil only
    after such a [Shutdown], and only when that [Shutdown] returned nil. *)
Theorem run_calls_shape (cfg : Config.SSEServerConfig)
    (allowUnauthenticated : bool) (env : Environment) :
  let calls := fst (RunSSEServerWithSimpleAuth cfg allowUnauthenticated env) in
  let result := snd (RunSSEServerWithSimpleAuth cfg allowUnauthenticated env) in
  (calls = []
   \/ calls = [ListenAndServe (Config.ListenAddr cfg)]
   \/ calls = [ListenAndServe (Config.ListenAddr cfg);
               Shutdown 30000000000])
  /\ (result = None ->
      calls = [ListenAndServe (Config.ListenAddr cfg); Shutdown 30000000000]
      /\ Shutdown_err env = None)
  /\ (In (Shutdown 30000000000) calls -> result = Shutdown_err env).
Proof.
  unfold RunSSEServerWithSimpleAuth.
  destruct (NewMCPServer_err env) as [e|].
  { cbn. split; [auto|]. split; [discriminate | intros []]. }
  destruct (if negb (String.eqb (Config.LogFilePath cfg) "")
            then OpenFile_err env else None) as [e|].
  { cbn. split; [auto|]. split; [discriminate | intros []]. }
  destruct (select_case env) as [|[err|]].
  - cbn. split; [auto|]. split; [intros ->; auto | reflexivity].
  - destruct (bool_decide (err = ErrServerClosed)); cbn.
    + split; [auto|]. split; [intros ->; auto | reflexivity].
    + split; [auto|]. split; [discriminate|].
      intros [H | []]. discriminate H.
  - cbn. split; [auto|]. split; [intros ->; auto | reflexivity].
Qed.

Lemma run_calls_shape_witness :
  fst (RunSSEServerWithSimpleAuth sample_config false signal_env)
  = [ListenAndServe ":8080"; Shutdown 30000000000]
  /\ snd (RunSSEServerWithSimpleAuth sample_config false listener_failure_env)
     <> None.
Proof.
  split.
  - apply (proj1 (proj2 (run_calls_shape sample_config false signal_env))).
    reflexivity.
  - intros H.
    destruct (proj1 (proj2 (run_calls_shape sample_config false
                              listener_failure_env)) H) as [Hcalls _].
    discriminate Hcalls.
Defined.

(** X2: a failed start accepts no traffic. When the engine cannot be
    built the run returns that error wrapped with the text
    "failed to create MCP server: ", whatever else would fail; when the
    engine is built, a log file is configured and cannot be opened, the
    run returns that error wrapped with "failed to open log file: ". In
    both cases the listener is never started. With no log file configured
    the log file is not opened: the run is the one of an environment in
    which opening succeeds. *)
Theorem failed_start_never_listens (cfg : Config.SSEServerConfig)
    (allowUnauthenticated : bool) (env : Environment) :
  (forall e, NewMCPServer_err env = Some e ->
     RunSSEServerWithSimpleAuth cfg allowUnauthenticated env
     = ([], Some (ErrorfW "failed to create MCP server: " e)))
  /\ (forall e, NewMCPServer_err env = None ->
        Config.LogFilePath cfg <> "" ->
        OpenFile_err env = Some e ->
        RunSSEServerWithSimpleAuth cfg allowUnauthenticated env
        = ([], Some (ErrorfW "failed to open log file: " e)))
  /\ (Config.LogFilePath cfg = "" ->
      RunSSEServerWithSimpleAuth cfg allowUnauthenticated env
      = RunSSEServerWithSimpleAuth cfg allowUnauthenticated
          {| NewMCPServer_err := NewMCPServer_err env;
             OpenFile_err := None;
             select_case := select_case env;
             Shutdown_err := Shutdown_err env |}).
Proof.
  unfold RunSSEServerWithSimpleAuth. split; [|split].
  - intros e ->. reflexivity.
  - intros e -> Hpath ->. apply String.eqb_neq in Hpath. rewrite Hpath.
    reflexivity.
  - intros ->. cbn [NewMCPServer_err OpenFile_err select_case Shutdown_err].
    destruct (NewMCPServer_err env); reflexivity.
Qed.

Lemma failed_start_never_listens_witness :
  RunSSEServerWithSimpleAuth sample_config false engine_failure_env
  = ([], Some (ErrorfW "failed to create MCP server: "
                 (Errorf "no toolset named x")))
  /\ RunSSEServerWithSimpleAuth sample_config false
       {| NewMCPServer_err := None;
          OpenFile_err := Some (Errorf "permission denied");
          select_case := ctx_Done; Shutdown_err := None |}
     = ([ListenAndServe ":8080"; Shutdown 30000000000], None).
Proof.
  split.
  - apply (proj1 (failed_start_never_listens sample_config false
                    engine_failure_env)).
    reflexivity.
  - rewrite (proj2 (proj2 (failed_start_never_listens sample_config false
                             {| NewMCPServer_err := None;
                                OpenFile_err :=
                                  Some (Errorf "permission denied");
                                select_case := ctx_Done;
                                Shutdown_err := None |})) eq_refl).
    reflexivity.
Defined.

(** ** The commands *)

(** X3: the sse command listens on the port of the [PORT] environment
    variable, and on 8080 when that variable is unset or empty; it always
    serves at the empty base path. Whenever the command starts the
    listener, the address is a colon followed by that port. *)
Theorem sse_listen_address (p : Main.Process) (env : Environment)
    (toolsets : list string) :
  let port := if String.eqb (Main.Getenv p "PORT") "" then "8080"
              else Main.Getenv p "PORT" in
  Config.ListenAddr (Main.sseServerConfig p toolsets) = ":" +:+ port
  /\ Config.BasePath (Main.sseServerConfig p toolsets) = ""
  /\ (forall call, In call (fst (snd (Main.sseCmd_RunE p env))) ->
        call = ListenAndServe (":" +:+ port)
        \/ call = Shutdown 30000000000).
Proof.
  intros port. split; [reflexivity|]. split; [reflexivity|].
  intros call. unfold Main.sseCmd_RunE.
  destruct (Main.UnmarshalKey (Main.viper p) "toolsets") as [ts|err];
    cbn [fst snd]; [|intros []].
  pose proof (run_calls_shape (Main.sseServerConfig p ts)
                (Main.GetBool (Main.viper p) "allow_unauthenticated") env)
    as (Hshape & _).
  cbv zeta in Hshape.
  destruct Hshape as [-> | [-> | ->]]; cbn [In].
  - intros [].
  - intros [<- | []]. left. reflexivity.
  - intros [<- | [<- | []]]; [left | right]; reflexivity.
Qed.

Lemma sse_listen_address_witness :
  fst (snd (Main.sseCmd_RunE (sample_process "" "" false) signal_env))
  = [ListenAndServe ":8080"; Shutdown 30000000000]
  /\ fst (snd (Main.sseCmd_RunE (sample_process "" "9090" false) signal_env))
     = [ListenAndServe ":9090"; Shutdown 30000000000].
Proof.
  split.
  - destruct (proj2 (proj2 (sse_listen_address (sample_process "" "" false)
                              signal_env []))
                (ListenAndServe ":8080")) as [_ | H].
    + vm_compute. left. reflexivity.
    + reflexivity.
    + discriminate H.
  - destruct (proj2 (proj2 (sse_listen_address
                              (sample_process "" "9090" false)
                              signal_env []))
                (ListenAndServe ":9090")) as [_ | H].
    + vm_compute. left. reflexivity.
    + reflexivity.
    + discriminate H.
Defined.

(** X4: a missing token stops the stdio command and not the sse command.
    With an empty [personal_access_token] the stdio command returns the
    error "GITHUB_PERSONAL_ACCESS_TOKEN not set" without reading the
    toolsets and without running the server. The sse command with an
    empty token prints its warning exactly when authentication is
    required, prints nothing with a token, and in every case goes on to
    run the server with the configured token. *)
Theorem token_required_by_stdio_only (p : Main.Process) :
  (Main.GetString (Main.viper p) "personal_access_token" = "" ->
   forall RunStdioServer,
     Main.stdioCmd_RunE p RunStdioServer
     = Some (Errorf "GITHUB_PERSONAL_ACCESS_TOKEN not set"))
  /\ (forall env toolsets,
        Main.UnmarshalKey (Main.viper p) "toolsets" = inl toolsets ->
        snd (Main.sseCmd_RunE p env)
        = RunSSEServerWithSimpleAuth (Main.sseServerConfig p toolsets)
            (Main.GetBool (Main.viper p) "allow_unauthenticated") env
        /\ Config.Token (Main.sseServerConfig p toolsets)
           = Main.GetString (Main.viper p) "personal_access_token"
        /\ (fst (Main.sseCmd_RunE p env) = [Main.no_token_warning]
            <-> Main.GetString (Main.viper p) "personal_access_token" = ""
                /\ Main.GetBool (Main.viper p) "allow_unauthenticated"
                   = false)
        /\ (fst (Main.sseCmd_RunE p env) = [Main.no_token_warning]
            \/ fst (Main.sseCmd_RunE p env) = [])).
Proof.
  split.
  - intros Htok run. unfold Main.stdioCmd_RunE. rewrite Htok. reflexivity.
  - intros env ts Hts. unfold Main.sseCmd_RunE. rewrite Hts. cbn [fst snd].
    split; [reflexivity|]. split; [reflexivity|].
    destruct (String.eqb_spec
                (Main.GetString (Main.viper p) "personal_access_token") "")
      as [Htok | Htok];
      destruct (Main.GetBool (Main.viper p) "allow_unauthenticated");
      cbn [negb]; split; try (right; reflexivity); try (left; reflexivity);
      split; try discriminate; try (intros [? ?]; congruence);
      try (intros _; split; [assumption | reflexivity]).
Qed.

Lemma token_required_by_stdio_only_witness :
  Main.stdioCmd_RunE (sample_process "" "" false) (fun _ => None)
  = Some (Errorf "GITHUB_PERSONAL_ACCESS_TOKEN not set")
  /\ snd (Main.sseCmd_RunE (sample_process "" "" false) signal_env)
     = ([ListenAndServe ":8080"; Shutdown 30000000000], None).
Proof.
  split.
  - apply (proj1 (token_required_by_stdio_only (sample_process "" "" false))).
    reflexivity.
  - rewrite (proj1 (proj2 (token_required_by_stdio_only
                             (sample_process "" "" false))
                      signal_env ["all"] eq_refl)).
    reflexivity.
Defined.

(** X5: toolsets that do not decode stop both commands before any server
    runs. The sse command returns the decoding error wrapped with the text
    "failed to unmarshal toolsets: " and makes no call to the HTTP server;
    the stdio command, given a token, returns the same wrapped error
    whatever its server would do. *)
Theorem undecodable_toolsets_stop_commands (p : Main.Process) (err : error) :
  Main.UnmarshalKey (Main.viper p) "toolsets" = inr err ->
  (forall env,
      snd (Main.sseCmd_RunE p env)
      = ([], Some (ErrorfW "failed to unmarshal toolsets: " err)))
  /\ (Main.GetString (Main.viper p) "personal_access_token" <> "" ->
      forall RunStdioServer,
        Main.stdioCmd_RunE p RunStdioServer
        = Some (ErrorfW "failed to unmarshal toolsets: " err)).
Proof.
  intros Hts. split.
  - intros env. unfold Main.sseCmd_RunE. rewrite Hts. reflexivity.
  - intros Htok run. unfold Main.stdioCmd_RunE. rewrite Hts.
    apply String.eqb_neq in Htok. rewrite Htok. reflexivity.
Qed.

Lemma undecodable_toolsets_stop_commands_witness :
  snd (Main.sseCmd_RunE bad_toolsets_process signal_env)
  = ([], Some (ErrorfW "failed to unmarshal toolsets: "
                 (Errorf "expected a slice of strings")))
  /\ Main.stdioCmd_RunE bad_toolsets_process (fun _ => None)
     = Some (ErrorfW "failed to unmarshal toolsets: "
               (Errorf "expected a slice of strings")).
Proof.
  split.
  - apply (proj1 (undecodable_toolsets_stop_commands bad_toolsets_process
                    (Errorf "expected a slice of strings") eq_refl)).
  - apply (proj2 (undecodable_toolsets_stop_commands bad_toolsets_process
                    (Errorf "expected a slice of strings") eq_refl)).
    discriminate.
Defined.

(** ** Extraction and the context *)

(** X6: successful extraction loses nothing of what it reads. Two requests
    for which extraction returns the same record carry the same values for
    the six headers it reads, and the [Authorization] value is the bearer
    prefix followed by the token of the record, byte for byte. *)
Theorem extract_record_determines_headers (r1 r2 : Request)
    (u : UserContext) :
  extractUserContext r1 = inl u ->
  extractUserContext r2 = inl u ->
  http_Header.Get (Header_ r1) "Authorization" = "Bearer " +:+ Token u
  /\ forall key,
       In key ["Authorization"; "X-User-ID"; "X-User-Email"; "X-User-Name";
               "X-Session-ID"; "X-Gateway-Request-ID"] ->
       http_Header.Get (Header_ r1) key = http_Header.Get (Header_ r2) key.
Proof.
  intros E1 E2.
  destruct (extract_inl_inv r1 u E1) as (Ha1 & Hu1 & _).
  destruct (extract_inl_inv r2 u E2) as (Ha2 & Hu2 & _).
  split; [exact Ha1|].
  assert (Hrec : record_of (Header_ r1) (Token u)
                 = record_of (Header_ r2) (Token u)) by congruence.
  unfold record_of in Hrec. injection Hrec as H1 H2 H3 H4 H5.
  intros key Hin. cbn [In] in Hin.
  destruct Hin as [<- | [<- | [<- | [<- | [<- | [<- | []]]]]]];
    congruence.
Qed.

Lemma extract_record_determines_headers_witness :
  http_Header.Get (Header_ gateway_request) "X-Session-ID"
  = http_Header.Get (Header_ gateway_request') "X-Session-ID".
Proof.
  refine (proj2 (extract_record_determines_headers gateway_request
                   gateway_request'
                   {| UserID := "u-42"; Email := "ada@example.com";
                      Name := "Ada"; SessionID := "s-1"; Token := "ghp_abc";
                      RequestID := "req-9" |} _ _) "X-Session-ID" _).
  - vm_compute. reflexivity.
  - vm_compute. reflexivity.
  - cbn [In]. tauto.
Defined.

Lemma Value_with_frames (frames : list (Key * Any)) (ctx : Context) :
  (forall k v, In (k, v) frames -> k <> userContextKey) ->
  Value (with_frames frames ctx) userContextKey = Value ctx userContextKey.
Proof.
  induction frames as [|[k v] frames IH]; intros Hkeys; [reflexivity|].
  cbn [with_frames Value].
  rewrite decide_False by (apply (Hkeys k v); left; reflexivity).
  apply IH. intros k' v' Hin. apply (Hkeys k' v'). right. exact Hin.
Qed.

(** X7: the identity lookup sees through frames of other keys and stops at
    the innermost attachment. Whatever values are stored on top of a
    context under keys other than the identity key, the lookup returns
    what it returns below them; the last attachment made is the one
    found, earlier ones being hidden; and an attachment of the nil pointer
    is found as (absent, true). *)
Theorem lookup_through_frames (frames : list (Key * Any)) (ctx : Context)
    (p : option UserContext) :
  (forall k v, In (k, v) frames -> k <> userContextKey) ->
  GetUserContext (with_frames frames ctx) = GetUserContext ctx
  /\ GetUserContext (with_frames frames (WithUserContext ctx p)) = (p, true).
Proof.
  intros Hkeys. unfold GetUserContext.
  rewrite !(Value_with_frames frames) by exact Hkeys.
  split; [reflexivity|].
  fold (GetUserContext (WithUserContext ctx p)).
  apply GetUserContext_WithUserContext.
Qed.

Lemma lookup_through_frames_witness :
  GetUserContext
    (WithValue
       (WithValue
          (WithUserContext
             (WithUserContext Background
                (Some {| UserID := "u-1"; Email := "e"; Name := "";
                         SessionID := ""; Token := ""; RequestID := "" |}))
             None)
          (contextKey "trace") (foreignAny "string" "t-1"))
       (foreignKey "string" "user_context") (foreignAny "string" "x"))
  = (None, true).
Proof.
  refine (proj2 (lookup_through_frames
                   [(foreignKey "string" "user_context",
                      foreignAny "string" "x");
                    (contextKey "trace", foreignAny "string" "t-1")]
                   (WithUserContext Background
                      (Some {| UserID := "u-1"; Email := "e"; Name := "";
                               SessionID := ""; Token := "";
                               RequestID := "" |}))
                   None _)).
  intros k v [H | [H | []]]; injection H as <- _; discriminate.
Defined.

(** ** The gates *)

(** X8: the body of a rejection holds no data of the request. Whatever
    the request, the strict gate's 401 body on a response not yet started
    is one of three fixed texts, one per failure of extraction. *)
Theorem rejection_body_is_fixed (next : Handler) (r : Request) (w : World)
    (err : error) :
  extractUserContext r = inr err ->
  wroteHeader (resp w) = false ->
  body (resp w) = "" ->
  In (body (resp (AuthenticationMiddleware next r w)))
     [unauthorized_body "missing Authorization header";
      unauthorized_body "invalid Authorization header format";
      unauthorized_body
        "missing required user context headers (X-User-ID or X-User-Email)"].
Proof.
  intros E Hfresh Hbody.
  destruct (strict_answers r w err E) as (w' & Ha & Hw).
  rewrite (Ha next). destruct (Hw Hfresh) as (_ & _ & -> & _).
  rewrite Hbody.
  destruct (extract_inr_inv r err E) as [-> | [-> | ->]]; cbn [In]; auto.
Qed.

Lemma rejection_body_is_fixed_witness :
  In (body (resp (AuthenticationMiddleware whoami
                    (request_with_authorization "Basic dXNlcjpwdw==")
                    (fresh_world "2025-06-01T12:00:00Z"))))
     [unauthorized_body "missing Authorization header";
      unauthorized_body "invalid Authorization header format";
      unauthorized_body
        "missing required user context headers (X-User-ID or X-User-Email)"].
Proof.
  apply (rejection_body_is_fixed whoami
           (request_with_authorization "Basic dXNlcjpwdw==")
           (fresh_world "2025-06-01T12:00:00Z") MalformedCredential).
  - vm_compute. reflexivity.
  - reflexivity.
  - reflexivity.
Defined.

(** X9: the bearer token reaches neither the log nor the response. Take
    two requests with the same method, path and peer address and the same
    values for [X-User-ID], [X-User-Email], [X-Session-ID],
    [X-Gateway-Request-ID] and [User-Agent], each with an [Authorization]
    value made of the bearer prefix and a token of its own. Under either
    gate, both are answered by the gate with the same world, or both are
    handed on with the same world: log and response are the same, and the
    tokens show only in the requests handed on. *)
Theorem token_not_logged (M : Handler -> Handler) (r1 r2 : Request)
    (w : World) (token1 token2 : string) :
  M = AuthenticationMiddleware \/ M = OptionalAuthenticationMiddleware ->
  Method r1 = Method r2 ->
  URL_Path r1 = URL_Path r2 ->
  RemoteAddr r1 = RemoteAddr r2 ->
  (forall key,
      In key ["X-User-ID"; "X-User-Email"; "X-Session-ID";
              "X-Gateway-Request-ID"; "User-Agent"] ->
      http_Header.Get (Header_ r1) key = http_Header.Get (Header_ r2) key) ->
  http_Header.Get (Header_ r1) "Authorization" = "Bearer " +:+ token1 ->
  http_Header.Get (Header_ r2) "Authorization" = "Bearer " +:+ token2 ->
  exists w',
    (answers M r1 w w' /\ answers M r2 w w')
    \/ (exists r1' r2', forwards M r1 w r1' w' /\ forwards M r2 w r2' w').
Proof.
  intros HM Hm Hp Hra Hagree Ha1 Ha2.
  pose proof (Hagree "X-User-ID" ltac:(cbn [In]; tauto)) as Hid.
  pose proof (Hagree "X-User-Email" ltac:(cbn [In]; tauto)) as Hem.
  pose proof (Hagree "X-Session-ID" ltac:(cbn [In]; tauto)) as Hse.
  pose proof (Hagree "X-Gateway-Request-ID" ltac:(cbn [In]; tauto)) as Hrq.
  pose proof (Hagree "User-Agent" ltac:(cbn [In]; tauto)) as Hua.
  pose proof (extract_bearer r1 token1 Ha1) as E1.
  pose proof (extract_bearer r2 token2 Ha2) as E2.
  rewrite Hid, Hem in E1.
  exists (M (fun _ w0 => w0) r2 w).
  destruct (String.eqb (http_Header.Get (Header_ r2) "X-User-ID") ""
            || String.eqb (http_Header.Get (Header_ r2) "X-User-Email") "").
  - destruct HM as [-> | ->].
    + left. split; intros next; unfold AuthenticationMiddleware;
        rewrite ?E1, ?E2, ?Hm, ?Hp, ?Hra, ?Hua; reflexivity.
    + right. exists r1, r2.
      split; intros next; unfold OptionalAuthenticationMiddleware;
        rewrite ?E1, ?E2, ?Hp; reflexivity.
  - right.
    exists (WithContext r1
              (WithUserContext (Context_ r1)
                 (Some (record_of (Header_ r1) token1)))),
           (WithContext r2
              (WithUserContext (Context_ r2)
                 (Some (record_of (Header_ r2) token2)))).
    destruct HM as [-> | ->].
    + split; intros next; unfold AuthenticationMiddleware;
        rewrite ?E1, ?E2; unfold record_of;
        cbn [UserID Email SessionID RequestID];
        rewrite ?Hm, ?Hp, ?Hra, ?Hid, ?Hem, ?Hse, ?Hrq; reflexivity.
    + split; intros next; unfold OptionalAuthenticationMiddleware;
        rewrite ?E1, ?E2; unfold record_of;
        cbn [UserID Email SessionID RequestID];
        rewrite ?Hid, ?Hem; reflexivity.
Qed.

Lemma token_not_logged_witness :
  logged (AuthenticationMiddleware (fun _ w0 => w0) gateway_request
            (fresh_world "2025-06-01T12:00:00Z"))
  = logged (AuthenticationMiddleware (fun _ w0 => w0)
              gateway_request_other_token
              (fresh_world "2025-06-01T12:00:00Z")).
Proof.
  destruct (token_not_logged AuthenticationMiddleware gateway_request
              gateway_request_other_token
              (fresh_world "2025-06-01T12:00:00Z") "ghp_abc" "ghp_other"
              (or_introl eq_refl) eq_refl eq_refl eq_refl)
    as (w' & [(A1 & A2) | (r1' & r2' & F1 & F2)]).
  - intros key Hin. cbn [In] in Hin.
    repeat (destruct Hin as [<- | Hin]; [vm_compute; reflexivity|]).
    destruct Hin.
  - vm_compute. reflexivity.
  - vm_compute. reflexivity.
  - rewrite (A1 _), (A2 _). reflexivity.
  - rewrite (F1 _), (F2 _). reflexivity.
Defined.

(** ** The server's handler, end to end *)

(** A request of any method but OPTIONS passes the envelope: the mux runs
    on a world that differs from the incoming one by the three CORS
    headers only. *)
Lemma cors_passes (r : Request) (w : World) :
  Method r <> "OPTIONS" ->
  exists w0,
    (forall cfg allow sse msg,
        corsHandler cfg allow sse msg r w
        = ServeMux_ServeHTTP (buildMux cfg allow sse msg) r w0)
    /\ rw_header (resp w0)
       = http_Header.Set_
           (http_Header.Set_
              (http_Header.Set_ (rw_header (resp w))
                 "Access-Control-Allow-Origin" "*")
              "Access-Control-Allow-Methods" "GET, POST, PUT, DELETE, OPTIONS")
           "Access-Control-Allow-Headers"
           "Authorization, Content-Type, X-User-ID, X-User-Email, X-User-Name, X-Session-ID, X-Gateway-Request-ID"
    /\ wroteHeader (resp w0) = wroteHeader (resp w)
    /\ status (resp w0) = status (resp w)
    /\ sentHeader (resp w0) = sentHeader (resp w)
    /\ body (resp w0) = body (resp w)
    /\ logged w0 = logged w
    /\ now_RFC3339 w0 = now_RFC3339 w.
Proof.
  intros Hm. apply String.eqb_neq in Hm. eexists. split.
  - intros cfg allow sse msg. unfold corsHandler, addSimpleCORS.
    rewrite Hm. reflexivity.
  - repeat (split; [reflexivity|]). reflexivity.
Qed.

(** With the empty base path, the session and message paths reach the
    gate chosen by the policy, around the handler of that path. *)
Lemma route_sse (cfg : Config.SSEServerConfig) (allow : bool)
    (sse msg : Handler) (r : Request) (w : World) :
  Config.BasePath cfg = "" ->
  URL_Path r = "/sse" ->
  ServeMux_ServeHTTP (buildMux cfg allow sse msg) r w
  = (if allow then OptionalAuthenticationMiddleware
     else AuthenticationMiddleware) sse r w.
Proof.
  intros Hb Hp. unfold ServeMux_ServeHTTP, buildMux, Handle.
  rewrite Hb, Hp. reflexivity.
Qed.

Lemma route_message (cfg : Config.SSEServerConfig) (allow : bool)
    (sse msg : Handler) (r : Request) (w : World) :
  Config.BasePath cfg = "" ->
  URL_Path r = "/message" ->
  ServeMux_ServeHTTP (buildMux cfg allow sse msg) r w
  = (if allow then OptionalAuthenticationMiddleware
     else AuthenticationMiddleware) msg r w.
Proof.
  intros Hb Hp. unfold ServeMux_ServeHTTP, buildMux, Handle.
  rewrite Hb, Hp. reflexivity.
Qed.

(** X10: under the strict policy, the server as a whole turns away a
    request to the session or message path for which extraction fails.
    With the empty base path, for any method but OPTIONS and a response
    not yet started, the answer is status 401 with the rejection body,
    sent with the JSON content type and with the CORS origin header, and
    it is the same whatever the two handlers of the SSE server are:
    neither is run. *)
Theorem server_rejects_unidentified (cfg : Config.SSEServerConfig)
    (r : Request) (w : World) (err : error) :
  Config.BasePath cfg = "" ->
  Method r <> "OPTIONS" ->
  URL_Path r = "/sse" \/ URL_Path r = "/message" ->
  extractUserContext r = inr err ->
  wroteHeader (resp w) = false ->
  exists w',
    (forall SSEHandler MessageHandler,
        corsHandler cfg false SSEHandler MessageHandler r w = w')
    /\ status (resp w') = 401%Z
    /\ body (resp w') = body (resp w) +:+ unauthorized_body (Error err)
    /\ http_Header.Get (sentHeader (resp w')) "Content-Type"
       = "application/json"
    /\ http_Header.Get (sentHeader (resp w')) "Access-Control-Allow-Origin"
       = "*".
Proof.
  intros Hb Hm Hp E Hfresh.
  destruct (cors_passes r w Hm)
    as (w0 & Hpass & Hh0 & Hw0 & _ & _ & Hb0 & _ & _).
  rewrite <- Hw0 in Hfresh.
  destruct (strict_answers r w0 err E) as (w' & Ha & Hw').
  destruct (Hw' Hfresh) as (_ & Hs & Hbody & Hsent).
  exists w'. split; [|split; [|split; [|split]]].
  - intros sse msg. rewrite Hpass.
    destruct Hp as [Hp | Hp];
      [rewrite (route_sse _ _ _ _ _ _ Hb Hp)
      | rewrite (route_message _ _ _ _ _ _ Hb Hp)]; apply Ha.
  - exact Hs.
  - rewrite Hbody, Hb0. reflexivity.
  - rewrite Hsent. apply Get_Set_eq.
  - rewrite Hsent, Hh0.
    rewrite !Get_Set_ne by (vm_compute; discriminate). apply Get_Set_eq.
Qed.

Lemma server_rejects_unidentified_witness :
  let w' := corsHandler sample_config false whoami whoami
              (bare_request "POST" "/message")
              (fresh_world "2025-06-01T12:00:00Z") in
  status (resp w') = 401%Z
  /\ body (resp w') = unauthorized_body "missing Authorization header".
Proof.
  destruct (server_rejects_unidentified sample_config
              (bare_request "POST" "/message")
              (fresh_world "2025-06-01T12:00:00Z") MissingCredential)
    as (w' & Hsame & Hs & Hb & _).
  - reflexivity.
  - discriminate.
  - right. reflexivity.
  - vm_compute. reflexivity.
  - reflexivity.
  - cbv zeta. rewrite (Hsame whoami whoami). split; [exact Hs | exact Hb].
Defined.

(** X11: an identified request reaches the handler of its path, and only
    that one, with the identity attached. With the empty base path, under
    either policy and for any method but OPTIONS, a request for which
    extraction returns a record is handed to the session handler when its
    path is the session path and to the message handler when its path is
    the message path; the request handed on is the incoming one with the
    record attached, and the response handed on has not been started by
    the server: nothing but the three CORS headers was set on it. *)
Theorem server_routes_identified (cfg : Config.SSEServerConfig)
    (allowUnauthenticated : bool) (r : Request) (w : World)
    (u : UserContext) :
  Config.BasePath cfg = "" ->
  Method r <> "OPTIONS" ->
  extractUserContext r = inl u ->
  exists w0,
    let r' := WithContext r (WithUserContext (Context_ r) (Some u)) in
    GetUserContext (Context_ r') = (Some u, true)
    /\ wroteHeader (resp w0) = wroteHeader (resp w)
    /\ body (resp w0) = body (resp w)
    /\ http_Header.Get (rw_header (resp w0)) "Access-Control-Allow-Origin"
       = "*"
    /\ (URL_Path r = "/sse" ->
        forall SSEHandler MessageHandler,
          corsHandler cfg allowUnauthenticated SSEHandler MessageHandler r w
          = SSEHandler r' w0)
    /\ (URL_Path r = "/message" ->
        forall SSEHandler MessageHandler,
          corsHandler cfg allowUnauthenticated SSEHandler MessageHandler r w
          = MessageHandler r' w0).
Proof.
  intros Hb Hm E.
  destruct (cors_passes r w Hm)
    as (w0 & Hpass & Hh0 & Hw0 & _ & _ & Hb0 & _ & _).
  assert (Hgate : exists w1,
             forwards (if allowUnauthenticated
                       then OptionalAuthenticationMiddleware
                       else AuthenticationMiddleware) r w0
               (WithContext r (WithUserContext (Context_ r) (Some u))) w1
             /\ resp w1 = resp w0).
  { destruct allowUnauthenticated.
    - destruct (optional_forwards_success r w0 u E) as (w1 & Hf & Hr & _).
      exists w1. split; assumption.
    - destruct (strict_forwards r w0 u E) as (w1 & Hf & Hr & _).
      exists w1. split; assumption. }
  destruct Hgate as (w1 & Hf & Hr).
  exists w1. cbv zeta. split; [apply GetUserContext_WithUserContext|].
  split; [rewrite Hr; exact Hw0|]. split; [rewrite Hr; exact Hb0|].
  split; [|split].
  - rewrite Hr, Hh0.
    rewrite !Get_Set_ne by (vm_compute; discriminate). apply Get_Set_eq.
  - intros Hp sse msg. rewrite Hpass, (route_sse _ _ _ _ _ _ Hb Hp).
    apply Hf.
  - intros Hp sse msg. rewrite Hpass, (route_message _ _ _ _ _ _ Hb Hp).
    apply Hf.
Qed.

Lemma server_routes_identified_witness :
  exists w0,
    corsHandler sample_config false (tagged "sse:") (tagged "msg:")
      (gateway_request_to "POST" "/message")
      (fresh_world "2025-06-01T12:00:00Z")
    = tagged "msg:"
        (WithContext (gateway_request_to "POST" "/message")
           (WithUserContext Background
              (Some {| UserID := "u-42"; Email := "ada@example.com";
                       Name := "Ada"; SessionID := "s-1";
                       Token := "ghp_abc"; RequestID := "req-9" |})))
        w0
    /\ wroteHeader (resp w0) = false /\ body (resp w0) = "".
Proof.
  destruct (server_routes_identified sample_config false
              (gateway_request_to "POST" "/message")
              (fresh_world "2025-06-01T12:00:00Z")
              {| UserID := "u-42"; Email := "ada@example.com";
                 Name := "Ada"; SessionID := "s-1"; Token := "ghp_abc";
                 RequestID := "req-9" |})
    as (w0 & _ & Hw & Hb & _ & _ & Hmsg).
  - reflexivity.
  - discriminate.
  - vm_compute. reflexivity.
  - exists w0. split; [|split; [exact Hw | exact Hb]].
    apply (Hmsg eq_refl).
Defined.

(** X12: under the optional policy the server turns nobody away at the
    session and message paths. With the empty base path and any method
    but OPTIONS, a request for which extraction fails is handed, as it
    came in, to the handler of its path: nothing is attached to its
    context, and the response handed on has not been started. *)
Theorem server_passes_unidentified (cfg : Config.SSEServerConfig)
    (r : Request) (w : World) (err : error) :
  Config.BasePath cfg = "" ->
  Method r <> "OPTIONS" ->
  extractUserContext r = inr err ->
  exists w0,
    wroteHeader (resp w0) = wroteHeader (resp w)
    /\ status (resp w0) = status (resp w)
    /\ body (resp w0) = body (resp w)
    /\ (URL_Path r = "/sse" ->
        forall SSEHandler MessageHandler,
          corsHandler cfg true SSEHandler MessageHandler r w
          = SSEHandler r w0)
    /\ (URL_Path r = "/message" ->
        forall SSEHandler MessageHandler,
          corsHandler cfg true SSEHandler MessageHandler r w
          = MessageHandler r w0).
Proof.
  intros Hb Hm E.
  destruct (cors_passes r w Hm)
    as (w0 & Hpass & _ & Hw0 & Hs0 & _ & Hb0 & _ & _).
  destruct (optional_forwards_failure r w0 err E) as (w1 & Hf & Hr & _).
  exists w1. rewrite Hr.
  split; [exact Hw0|]. split; [exact Hs0|]. split; [exact Hb0|].
  split.
  - intros Hp sse msg. rewrite Hpass, (route_sse _ _ _ _ _ _ Hb Hp).
    apply Hf.
  - intros Hp sse msg. rewrite Hpass, (route_message _ _ _ _ _ _ Hb Hp).
    apply Hf.
Qed.

Lemma server_passes_unidentified_witness :
  exists w0,
    corsHandler sample_config true (tagged "sse:") (tagged "msg:")
      (bare_request "GET" "/sse") (fresh_world "2025-06-01T12:00:00Z")
    = tagged "sse:" (bare_request "GET" "/sse") w0
    /\ wroteHeader (resp w0) = false.
Proof.
  destruct (server_passes_unidentified sample_config
              (bare_request "GET" "/sse")
              (fresh_world "2025-06-01T12:00:00Z") MissingCredential)
    as (w0 & Hw & _ & _ & Hsse & _).
  - reflexivity.
  - discriminate.
  - vm_compute. reflexivity.
  - exists w0. split; [apply (Hsse eq_refl) | exact Hw].
Defined.

(** X13: the health and status endpoints look at nothing of the request
    but its path, and at whether its method is OPTIONS. Two requests to
    [/health] with any methods but OPTIONS get the same writes to the
    response writer and leave the same log, whatever their headers and
    contexts, whatever the configuration, the policy and the handlers of
    the SSE server; two requests to [/status] do so under configurations
    that agree on the version, the host and the read-only flag, with the
    same policy. *)
Theorem health_and_status_ignore_request
    (cfg1 cfg2 : Config.SSEServerConfig) (allow1 allow2 : bool)
    (sse1 msg1 sse2 msg2 : Handler) (r1 r2 : Request) (w : World) :
  Method r1 <> "OPTIONS" ->
  Method r2 <> "OPTIONS" ->
  (URL_Path r1 = "/health" -> URL_Path r2 = "/health" ->
   corsHandler cfg1 allow1 sse1 msg1 r1 w
   = corsHandler cfg2 allow2 sse2 msg2 r2 w)
  /\ (URL_Path r1 = "/status" -> URL_Path r2 = "/status" ->
      Config.Version cfg1 = Config.Version cfg2 ->
      Config.Host cfg1 = Config.Host cfg2 ->
      Config.ReadOnly cfg1 = Config.ReadOnly cfg2 ->
      allow1 = allow2 ->
      corsHandler cfg1 allow1 sse1 msg1 r1 w
      = corsHandler cfg2 allow2 sse2 msg2 r2 w).
Proof.
  intros Hm1 Hm2. apply String.eqb_neq in Hm1, Hm2.
  unfold corsHandler, addSimpleCORS. rewrite Hm1, Hm2.
  unfold ServeMux_ServeHTTP, buildMux, Handle. cbn [app mux_find].
  split.
  - intros -> ->. reflexivity.
  - intros -> -> Hv Hh Hro ->.
    change (String.eqb "/health" "/status") with false.
    change (String.eqb "/status" "/status") with true. cbv iota.
    unfold statusHandler. rewrite Hv, Hh, Hro. reflexivity.
Qed.

Lemma health_and_status_ignore_request_witness :
  corsHandler sample_config false whoami whoami
    (gateway_request_to "POST" "/health") (fresh_world "2025-06-01T12:00:00Z")
  = corsHandler sample_config true (tagged "sse:") (tagged "msg:")
      (bare_request "GET" "/health") (fresh_world "2025-06-01T12:00:00Z").
Proof.
  apply (proj1 (health_and_status_ignore_request sample_config sample_config
                  false true whoami whoami (tagged "sse:") (tagged "msg:")
                  (gateway_request_to "POST" "/health")
                  (bare_request "GET" "/health")
                  (fresh_world "2025-06-01T12:00:00Z")
                  ltac:(discriminate) ltac:(discriminate)));
    reflexivity.
Defined.
